(** * Probability functions of [probability.py]: a shallow embedding

    The class [P_fn] of [probability.py] wraps an evaluator (a callable or
    a fixed number) and an optional condition, and builds new instances
    with [given], [conditional], [independent], [mutually_exclusive] and
    [dependent].  Python values, the operators the class and its test
    scenarios use, and exceptions are embedded below; the methods follow
    the source line by line.  The scalar class [P] of the same file, with
    its range-checked constructor and overloaded operators, follows in
    [PClass].

    Python's [float] is embedded as the rational it denotes: rounding,
    infinities and NaN are outside this model. *)

From Stdlib Require Import ZArith QArith Qround Bool List String Lqa.
Import ListNotations.
Local Open Scope Z_scope.

(** ** Exceptions and results *)

Module Py.

Inductive exn : Type :=
| TypeError
| ZeroDivisionError
| IndexError
| NameError (name : string)
| Raised (what : string).

Inductive result (A : Type) : Type :=
| Return (a : A)
| Raise (e : exn).

Arguments Return {A} a.
Arguments Raise {A} e.

Definition bind {A B : Type} (m : result A) (k : A -> result B) : result B :=
  match m with
  | Return a => k a
  | Raise e => Raise e
  end.

Declare Scope py_scope.
Delimit Scope py_scope with py.
Notation "x <- m ;; k" := (bind m (fun x => k))
  (at level 61, m at next level, right associativity) : py_scope.
Local Open Scope py_scope.

(** ** Values *)

#[warnings="-register-all"]
Inductive pyval : Type :=
| VNone
| VBool (b : bool)
| VInt (z : Z)
| VFloat (q : Q)
| VStr (s : string)
| VTuple (items : list pyval).

(** The numeric tower: [bool] is a subclass of [int]; mixing with a
    [float] gives a [float]. *)
Inductive num : Type :=
| NInt (z : Z)
| NFloat (q : Q).

Definition as_num (v : pyval) : option num :=
  match v with
  | VBool b => Some (NInt (if b then 1 else 0))
  | VInt z => Some (NInt z)
  | VFloat q => Some (NFloat q)
  | _ => None
  end.

Definition num_q (n : num) : Q :=
  match n with
  | NInt z => inject_Z z
  | NFloat q => q
  end.

(** The rational a numeric value denotes. *)
Definition num_of (v : pyval) : option Q := option_map num_q (as_num v).

(** [bool(v)] *)
Definition truthy (v : pyval) : bool :=
  match v with
  | VNone => false
  | VBool b => b
  | VInt z => negb (z =? 0)
  | VFloat q => negb (Qeq_bool q 0)
  | VStr s => negb (String.eqb s EmptyString)
  | VTuple items => match items with [] => false | _ => true end
  end.

(** [a == b] *)
Fixpoint py_eq (a b : pyval) {struct a} : bool :=
  match as_num a, as_num b with
  | Some x, Some y => Qeq_bool (num_q x) (num_q y)
  | _, _ =>
    match a, b with
    | VNone, VNone => true
    | VStr s, VStr t => String.eqb s t
    | VTuple xs, VTuple ys =>
      (fix all2 (l : list pyval) (r : list pyval) {struct l} : bool :=
         match l, r with
         | [], [] => true
         | x :: l', y :: r' => py_eq x y && all2 l' r'
         | _, _ => false
         end) xs ys
    | _, _ => false
    end
  end.

(** [a != b] *)
Definition py_ne (a b : pyval) : bool := negb (py_eq a b).

(** [a + b] *)
Definition py_add (a b : pyval) : result pyval :=
  match as_num a, as_num b with
  | Some (NInt x), Some (NInt y) => Return (VInt (x + y))
  | Some x, Some y => Return (VFloat (Qred (num_q x + num_q y)))
  | _, _ =>
    match a, b with
    | VStr s, VStr t => Return (VStr (s ++ t))
    | VTuple xs, VTuple ys => Return (VTuple (xs ++ ys))
    | _, _ => Raise TypeError
    end
  end.

Fixpoint repeat_string (s : string) (n : nat) : string :=
  match n with
  | O => EmptyString
  | S n' => (s ++ repeat_string s n')%string
  end.

Definition repeat_items (items : list pyval) (n : nat) : list pyval :=
  List.concat (List.repeat items n).

(** [a * b]; a sequence times an integer repeats the sequence. *)
Definition py_mul (a b : pyval) : result pyval :=
  match as_num a, as_num b with
  | Some (NInt x), Some (NInt y) => Return (VInt (x * y))
  | Some x, Some y => Return (VFloat (Qred (num_q x * num_q y)))
  | Some (NInt k), None =>
    match b with
    | VStr s => Return (VStr (repeat_string s (Z.to_nat k)))
    | VTuple items => Return (VTuple (repeat_items items (Z.to_nat k)))
    | _ => Raise TypeError
    end
  | None, Some (NInt k) =>
    match a with
    | VStr s => Return (VStr (repeat_string s (Z.to_nat k)))
    | VTuple items => Return (VTuple (repeat_items items (Z.to_nat k)))
    | _ => Raise TypeError
    end
  | _, _ => Raise TypeError
  end.

(** [a / b]: true division, always a [float]. *)
Definition py_truediv (a b : pyval) : result pyval :=
  match as_num a, as_num b with
  | Some x, Some y =>
    if Qeq_bool (num_q y) 0 then Raise ZeroDivisionError
    else Return (VFloat (Qred (num_q x / num_q y)))
  | _, _ => Raise TypeError
  end.

(** [a % b]: the result takes the sign of the divisor. *)
Definition py_mod (a b : pyval) : result pyval :=
  match as_num a, as_num b with
  | Some (NInt x), Some (NInt y) =>
    if y =? 0 then Raise ZeroDivisionError else Return (VInt (x mod y))
  | Some x, Some y =>
    if Qeq_bool (num_q y) 0 then Raise ZeroDivisionError
    else Return (VFloat (Qred (num_q x - num_q y * inject_Z (Qfloor (num_q x / num_q y)))))
  | _, _ => Raise TypeError
  end.

(** [a <= b]: numbers by value, strings and tuples lexicographically;
    any other pairing is not ordered. *)
Fixpoint py_le (a b : pyval) {struct a} : result bool :=
  match as_num a, as_num b with
  | Some x, Some y => Return (Qle_bool (num_q x) (num_q y))
  | _, _ =>
    match a, b with
    | VStr s, VStr t => Return (String.leb s t)
    | VTuple xs, VTuple ys =>
      (fix lex (l : list pyval) (r : list pyval) {struct l} : result bool :=
         match l, r with
         | [], _ => Return true
         | _ :: _, [] => Return false
         | x :: l', y :: r' => if py_eq x y then lex l' r' else py_le x y
         end) xs ys
    | _, _ => Raise TypeError
    end
  end.

(** [x in [e1, ..., en]] *)
Definition py_in (x : pyval) (items : list pyval) : bool :=
  existsb (fun e => py_eq e x) items.

(** [isinstance(x, tuple)] *)
Definition is_tuple (x : pyval) : bool :=
  match x with
  | VTuple _ => true
  | _ => false
  end.

(** [x[i]] for a literal index [i]. *)
Definition py_index (x : pyval) (i : nat) : result pyval :=
  match x with
  | VTuple items =>
    match nth_error items i with
    | Some v => Return v
    | None => Raise IndexError
    end
  | VStr s =>
    match String.get i s with
    | Some c => Return (VStr (String c EmptyString))
    | None => Raise IndexError
    end
  | _ => Raise TypeError
  end.

(** A callable receives its positional arguments as a list. *)
Definition callable : Type := list pyval -> result pyval.

(** [lambda x: body]: exactly one positional argument. *)
Definition lambda1 (body : pyval -> result pyval) : callable :=
  fun args =>
    match args with
    | [x] => body x
    | _ => Raise TypeError
    end.

End Py.

Import Py.
Local Open Scope py_scope.

(** ** The class [P_fn] *)

(** [self.value] is either a callable or a fixed number; [__call__]
    tells them apart with [callable(self.value)]. *)
Inductive evaluator : Type :=
| Fn (f : callable)
| Scalar (v : pyval).

(** [P_fn.__init__(value, condition=None)] stores both unchecked. *)
Record P_fn : Type := mkP_fn {
  value : evaluator;
  condition : option callable
}.

(** [self.condition is None or self.condition( *args )] *)
Definition gate (self : P_fn) (args : list pyval) : result bool :=
  match condition self with
  | None => Return true
  | Some c => t <- c args ;; Return (truthy t)
  end.

(** What the true branch of [__call__] evaluates. *)
Definition apply_value (e : evaluator) (args : list pyval) : result pyval :=
  match e with
  | Fn f => f args
  | Scalar v => Return v
  end.

(** [P_fn.__call__] *)
Definition call (self : P_fn) (args : list pyval) : result pyval :=
  match value self with
  | Fn f =>
    b <- gate self args ;;
    if b then f args else Return (VInt 0)
  | Scalar v =>
    b <- gate self args ;;
    if b then Return v else Return (VInt 0)
  end.

(** Truth value of an object stored in [self.condition]: [None] is
    false, a function object is true. *)
Definition object_truthy (c : option callable) : bool :=
  match c with
  | None => false
  | Some _ => true
  end.

(** [a and b] on two such objects: [a] when [a] is false, else [b]. *)
Definition py_and (a b : option callable) : option callable :=
  if object_truthy a then b else a.

Definition is_not_None (c : option callable) : bool :=
  match c with
  | None => false
  | Some _ => true
  end.

(** [P_fn.given] *)
Definition given (self : P_fn) (cond : option callable) (replace : bool) : P_fn :=
  if negb replace && is_not_None (condition self)
  then mkP_fn (value self) (py_and (condition self) cond)
  else mkP_fn (value self) cond.

(** [P_fn.conditional] *)
Definition conditional (self other : P_fn) : P_fn :=
  mkP_fn
    (Fn (lambda1 (fun x =>
       d <- call other [x] ;;
       if py_ne d (VInt 0)
       then a <- call self [x] ;; b <- call other [x] ;; py_truediv a b
       else Return (VInt 0))))
    (condition self).

(** [P_fn.independent] *)
Definition independent (self other : P_fn) : P_fn :=
  mkP_fn
    (Fn (lambda1 (fun x =>
       a <- call self [x] ;; b <- call other [x] ;; py_add a b)))
    None.

(** The names bound at module level when a method body runs: the
    imports, the notebook shims, and the top-level definitions. *)
Definition module_globals : list string :=
  [ "Callable"; "Optional"; "Union"; "functools"; "unittest"; "math";
    "Decimal"; "Fraction"; "warnings"; "o";
    "DisplayObject"; "TextDisplayObject"; "Markdown"; "display"; "Latex";
    "in_notebook"; "P"; "test_probability_class"; "P_fn";
    "test_P_fnambda" ]%string.

(** A bare name in a method body that is neither a parameter nor a local
    is looked up at module level and then among the builtins; method
    names live in the class and are not found that way.  The builtins
    are not listed: the one name this class looks up is not among
    them. *)
Definition lookup_global (name : string) : result unit :=
  if existsb (String.eqb name) module_globals
  then Return tt
  else Raise (NameError name).

(** [P_fn.mutually_exclusive]: [return independent(self, other)].  None
    of the module-level objects is a two-argument combinator, so a call
    through any of them would be a [TypeError]. *)
Definition mutually_exclusive (self other : P_fn) : result P_fn :=
  _ <- lookup_global "independent" ;;
  Raise TypeError.

(** [P_fn.dependent] *)
Definition dependent (self other : P_fn) : P_fn :=
  mkP_fn
    (Fn (lambda1 (fun x =>
       if is_tuple x
       then a <- (x0 <- py_index x 0 ;; call self [x0]) ;;
            b <- (x1 <- py_index x 1 ;; call other [x1]) ;;
            py_mul a b
       else a <- call self [x] ;; b <- call other [x] ;; py_mul a b)))
    None.

(** ** The scenarios of [test_P_fnambda] *)

Definition one_sixth : result pyval := py_truediv (VInt 1) (VInt 6).
Definition one_half : result pyval := py_truediv (VInt 1) (VInt 2).

(** [lambda x: 1/6 if 1 <= x <= 6 else 0] *)
Definition die_fn : callable :=
  lambda1 (fun x =>
    lo <- py_le (VInt 1) x ;;
    inside <- (if lo then py_le x (VInt 6) else Return false) ;;
    if inside then one_sixth else Return (VInt 0)).

Definition p_die : P_fn := mkP_fn (Fn die_fn) None.

(** [lambda x: x % 2 == 0] *)
Definition is_even : callable :=
  lambda1 (fun x => r <- py_mod x (VInt 2) ;; Return (VBool (py_eq r (VInt 0)))).

Definition p_die_even : P_fn := given p_die (Some is_even) true.

(** [lambda x: 1/2 if x in ['H', 'T'] else 0] *)
Definition coin_fn : callable :=
  lambda1 (fun x =>
    if py_in x [VStr "H"; VStr "T"] then one_half else Return (VInt 0)).

Definition p_coin : P_fn := mkP_fn (Fn coin_fn) None.

Definition p_die_coin : P_fn := independent p_die p_coin.

(** [lambda x: 1/2 if x in ['A', 'B'] else 0] and its neighbour. *)
Definition p_A : P_fn :=
  mkP_fn (Fn (lambda1 (fun x =>
    if py_in x [VStr "A"; VStr "B"] then one_half else Return (VInt 0)))) None.

Definition p_B : P_fn :=
  mkP_fn (Fn (lambda1 (fun x =>
    if py_in x [VStr "B"; VStr "C"] then one_half else Return (VInt 0)))) None.

Definition p_A_given_B : P_fn := conditional p_A p_B.

(** An evaluator that raises whenever it is run. *)
Definition exploding : evaluator := Fn (fun _ => Raise (Raised "evaluator ran")).

(** The constant functions 1 and 1/2. *)
Definition certain : P_fn := mkP_fn (Scalar (VInt 1)) None.

Definition half : P_fn := mkP_fn (Scalar (VFloat (1 # 2))) None.

(** [lambda x: 4 <= x] *)
Definition at_least_four : callable :=
  lambda1 (fun x => b <- py_le (VInt 4) x ;; Return (VBool b)).

(** The die restricted to even rolls, paired with the coin. *)
Definition even_die_and_coin : P_fn :=
  dependent (given p_die (Some is_even) true) p_coin.

(** [P_fn(lambda x: x)]: in the unit interval only at inputs that are. *)
Definition p_identity : P_fn := mkP_fn (Fn (lambda1 (fun x => Return x))) None.

(** [lambda x: x <= 1] *)
Definition at_most_one : callable :=
  lambda1 (fun x => b <- py_le x (VInt 1) ;; Return (VBool b)).

(** [x * x + x], over 1, where [x <= 1]: every combinator once. *)
Definition square_plus : P_fn :=
  given
    (conditional
       (independent (dependent p_identity p_identity) p_identity)
       certain)
    (Some at_most_one) false.

(** ** Values in the unit interval *)

(** A numeric value between 0 and 1. *)
Definition in_unit (v : pyval) : Prop :=
  exists q, num_of v = Some q /\ (0 <= q)%Q /\ (q <= 1)%Q.

(** Every value the evaluator returns is in the unit interval. *)
Definition evaluator_in_unit (e : evaluator) : Prop :=
  forall args v, apply_value e args = Return v -> in_unit v.

Definition calls_in_unit (p : P_fn) : Prop :=
  forall args v, call p args = Return v -> in_unit v.

(** Every value the evaluator returns at these arguments is in the unit
    interval. *)
Definition evaluator_in_unit_at (e : evaluator) (args : list pyval) : Prop :=
  forall v, apply_value e args = Return v -> in_unit v.

(** At the input [x] the values of the operands sum to at most 1. *)
Definition sum_bounded_at (p q : P_fn) (x : pyval) : Prop :=
  forall a b qa qb,
    call p [x] = Return a -> call q [x] = Return b ->
    num_of a = Some qa -> num_of b = Some qb -> (qa + qb <= 1)%Q.

(** At the input [x] the numerator is at most a non-zero denominator. *)
Definition ratio_bounded_at (p q : P_fn) (x : pyval) : Prop :=
  forall a b qa qb,
    call p [x] = Return a -> call q [x] = Return b ->
    num_of a = Some qa -> num_of b = Some qb -> ~ qb == 0 -> (qa <= qb)%Q.

(** [Composed p args]: [p] is composed so that, for a call with [args],
    every caller-supplied evaluator is in the unit interval at the
    input it receives.  [given] and [dependent] compose freely: a pair
    sends its components to the operands, any other input goes to both.
    [independent] and [conditional] compose only under the bounds above
    at the input of the call. *)
Inductive Composed : P_fn -> list pyval -> Prop :=
| Composed_base (p : P_fn) (args : list pyval) :
    evaluator_in_unit_at (value p) args -> Composed p args
| Composed_given (p : P_fn) (c : option callable) (r : bool)
    (args : list pyval) :
    Composed p args -> Composed (given p c r) args
| Composed_dependent_pair (p q : P_fn) (x y : pyval) (rest : list pyval) :
    Composed p [x] -> Composed q [y] ->
    Composed (dependent p q) [VTuple (x :: y :: rest)]
| Composed_dependent_single (p q : P_fn) (x : pyval) :
    is_tuple x = false -> Composed p [x] -> Composed q [x] ->
    Composed (dependent p q) [x]
| Composed_independent (p q : P_fn) (x : pyval) :
    Composed p [x] -> Composed q [x] -> sum_bounded_at p q x ->
    Composed (independent p q) [x]
| Composed_conditional (p q : P_fn) (x : pyval) :
    Composed p [x] -> Composed q [x] -> ratio_bounded_at p q x ->
    Composed (conditional p q) [x].

(** ** Further operators *)

(** [a < b], ordered like [a <= b]. *)
Fixpoint py_lt (a b : pyval) {struct a} : result bool :=
  match as_num a, as_num b with
  | Some x, Some y => Return (negb (Qle_bool (num_q y) (num_q x)))
  | _, _ =>
    match a, b with
    | VStr s, VStr t => Return (String.ltb s t)
    | VTuple xs, VTuple ys =>
      (fix lex (l : list pyval) (r : list pyval) {struct l} : result bool :=
         match l, r with
         | [], [] => Return false
         | [], _ :: _ => Return true
         | _ :: _, [] => Return false
         | x :: l', y :: r' => if py_eq x y then lex l' r' else py_lt x y
         end) xs ys
    | _, _ => Raise TypeError
    end
  end.

(** [a > b] is the reflected [b < a] on these types. *)
Definition py_gt (a b : pyval) : result bool := py_lt b a.

(** [a - b]: numbers only. *)
Definition py_sub (a b : pyval) : result pyval :=
  match as_num a, as_num b with
  | Some (NInt x), Some (NInt y) => Return (VInt (x - y))
  | Some x, Some y => Return (VFloat (Qred (num_q x - num_q y)))
  | _, _ => Raise TypeError
  end.

(** [-a]: numbers only. *)
Definition py_neg (a : pyval) : result pyval :=
  match as_num a with
  | Some (NInt x) => Return (VInt (- x))
  | Some (NFloat q) => Return (VFloat (Qred (- q)))
  | None => Raise TypeError
  end.

(** Exceptions of classes the core never raises, by class name. *)
Definition ValueError (msg : string) : exn :=
  Raised ("ValueError: " ++ msg).

Definition AttributeError (attr : string) : exn :=
  Raised ("AttributeError: " ++ attr).

(** ** The class [P]

    Modelled with the fallback shims of the module ([display = print],
    [Markdown] the identity): [display] only prints a line and returns,
    so the methods are followed for the object they return or the
    exception they raise; the printed text is not part of the model. *)

Module PClass.

(** [P.__init__] binds four attributes to the same value. *)
Record P : Type := mkP {
  value : pyval;
  val : pyval;
  v : pyval;
  as_float : pyval
}.

(** [ValueError("Probability value must be between -1 and 1")] *)
Definition out_of_range : exn :=
  ValueError "Probability value must be between -1 and 1".

(** [P.__init__]: [value < -1 or value > 1] raises [ValueError]. *)
Definition __init__ (value : pyval) : result P :=
  below <- py_lt value (VInt (-1)) ;;
  bad <- (if below then Return true else py_gt value (VInt 1)) ;;
  if bad
  then Raise out_of_range
  else Return (mkP value value value value).

(** The right operand of an operator: a [P] or any other value. *)
Inductive operand : Type :=
| Obj (p : P)
| Val (x : pyval).

(** [if isinstance(other, float): other = P(value=other)] *)
Definition lift_float (other : operand) : result operand :=
  match other with
  | Val (VFloat q) => p <- __init__ (VFloat q) ;; Return (Obj p)
  | _ => Return other
  end.

(** [other.v]: only a [P] has the attribute. *)
Definition get_v (other : operand) : result pyval :=
  match other with
  | Obj p => Return (v p)
  | Val _ => Raise (AttributeError "v")
  end.

(** [P.__add__] *)
Definition __add__ (self : P) (other : operand) (independent : bool) : result P :=
  other <- lift_float other ;;
  if independent
  then ov <- get_v other ;;
       s <- py_add (v self) ov ;;
       __init__ s
  else ov <- get_v other ;;
       s <- py_add (v self) ov ;;
       ov' <- get_v other ;;
       m <- py_mul (v self) ov' ;;
       d <- py_sub s m ;;
       __init__ d.

(** [P.p_add] *)
Definition p_add (self : P) (other : operand) (independent : bool) : result P :=
  __add__ self other independent.

(** [P.__mul__] *)
Definition __mul__ (self : P) (other : operand) : result P :=
  other <- lift_float other ;;
  ov <- get_v other ;;
  m <- py_mul (v self) ov ;;
  __init__ m.

(** [P.__sub__] *)
Definition __sub__ (self : P) (other : operand) (independent : bool) : result P :=
  other_sub <- match other with
               | Obj p => n <- py_neg (v p) ;; __init__ n
               | Val x => n <- py_neg x ;; __init__ n
               end ;;
  __add__ self (Obj other_sub) independent.

(** [P.p_sub] *)
Definition p_sub (self : P) (other : operand) (independent : bool) : result P :=
  __sub__ self other independent.

(** [P.__or__]: [self + other - p_A_and_B] with the default flags. *)
Definition __or__ (self : P) (other : operand) : result P :=
  other <- lift_float other ;;
  p_A_and_B <- __mul__ self other ;;
  s <- __add__ self other true ;;
  __sub__ s (Obj p_A_and_B) true.

(** [P.p_or] *)
Definition p_or (self : P) (other : operand) : result P := __or__ self other.

(** [P.__and__] *)
Definition __and__ (self : P) (other : operand) : result P := __mul__ self other.

(** [P.p_and] *)
Definition p_and (self : P) (other : operand) : result P := __and__ self other.

(** [P.__bool__]: warns and answers [False]. *)
Definition __bool__ (self : P) : bool := false.

(** The stored number lies between -1 and 1. *)
Definition holds (p : P) (q : Q) : Prop :=
  num_of (v p) = Some q /\ (-1 <= q)%Q /\ (q <= 1)%Q.

End PClass.

(** The gap between 1 and the next [float] above it, [2 ** -52]: a sum
    that exceeds 1 by at least this much is above 1 after rounding too. *)
Definition ulp_one : Q := 1 # 4503599627370496.

(** The objects [P(0.4)], [P(0.2)] and [P(0.6)]. *)
Definition p_04 : PClass.P :=
  PClass.mkP (VFloat (2 # 5)) (VFloat (2 # 5)) (VFloat (2 # 5)) (VFloat (2 # 5)).

Definition p_02 : PClass.P :=
  PClass.mkP (VFloat (1 # 5)) (VFloat (1 # 5)) (VFloat (1 # 5)) (VFloat (1 # 5)).

Definition p_06 : PClass.P :=
  PClass.mkP (VFloat (3 # 5)) (VFloat (3 # 5)) (VFloat (3 # 5)) (VFloat (3 # 5)).

(** ** Compositions without side conditions *)

(** A numeric value that is not negative. *)
Definition non_negative (x : pyval) : Prop :=
  exists q, num_of x = Some q /\ (0 <= q)%Q.

Definition evaluator_non_negative (e : evaluator) : Prop :=
  forall args x, apply_value e args = Return x -> non_negative x.

Definition calls_non_negative (p : P_fn) : Prop :=
  forall args x, call p args = Return x -> non_negative x.

(** Functions built from non-negative evaluators with any of the four
    working combinators. *)
Inductive Built : P_fn -> Prop :=
| Built_base (p : P_fn) :
    evaluator_non_negative (value p) -> Built p
| Built_given (p : P_fn) (c : option callable) (r : bool) :
    Built p -> Built (given p c r)
| Built_dependent (p q : P_fn) :
    Built p -> Built q -> Built (dependent p q)
| Built_independent (p q : P_fn) :
    Built p -> Built q -> Built (independent p q)
| Built_conditional (p q : P_fn) :
    Built p -> Built q -> Built (conditional p q).

(** ** The result monad *)

Lemma bind_inv {A B : Type} (m : result A) (k : A -> result B) (b : B) :
  bind m k = Return b -> exists a, m = Return a /\ k a = Return b.
Proof.
  destruct m as [a | e]; simpl; intros H.
  - exists a. split; [reflexivity | exact H].
  - discriminate H.
Qed.

(** ** The first two test cases *)

Example die_three : call p_die [VInt 3] = Return (VFloat (1 # 6)).
Proof. reflexivity. Qed.

Example die_even_three : call p_die_even [VInt 3] = Return (VInt 0).
Proof. reflexivity. Qed.

(** ** Numeric facts about the operators *)

Section Numbers.

Variables (a b : pyval) (qa qb : Q).
Hypothesis (Ha : num_of a = Some qa) (Hb : num_of b = Some qb).

Lemma num_of_as_num (v : pyval) (q : Q) :
  num_of v = Some q -> exists n, as_num v = Some n /\ num_q n = q.
Proof.
  unfold num_of. destruct (as_num v) as [n |]; simpl; intros H.
  - exists n. split; [reflexivity | congruence].
  - discriminate H.
Qed.

Lemma py_eq_num : py_eq a b = Qeq_bool qa qb.
Proof.
  destruct (num_of_as_num _ _ Ha) as [x [Hx Ex]].
  destruct (num_of_as_num _ _ Hb) as [y [Hy Ey]].
  destruct a; simpl in Hx |- *; try discriminate Hx;
    rewrite Hy; injection Hx as <-; subst; reflexivity.
Qed.

Lemma py_truediv_num :
  Qeq_bool qb 0 = false ->
  py_truediv a b = Return (VFloat (Qred (qa / qb))).
Proof.
  destruct (num_of_as_num _ _ Ha) as [x [Hx Ex]].
  destruct (num_of_as_num _ _ Hb) as [y [Hy Ey]].
  intros Hz. unfold py_truediv. rewrite Hx, Hy, Ex, Ey, Hz. reflexivity.
Qed.

Lemma py_add_num :
  exists r q, py_add a b = Return r /\ num_of r = Some q /\ q == qa + qb.
Proof.
  destruct (num_of_as_num _ _ Ha) as [x [Hx Ex]].
  destruct (num_of_as_num _ _ Hb) as [y [Hy Ey]].
  unfold py_add. rewrite Hx, Hy. subst qa qb.
  destruct x as [x | x], y as [y | y];
    [ exists (VInt (x + y)), (inject_Z (x + y))
    | exists (VFloat (Qred (inject_Z x + y))), (Qred (inject_Z x + y))
    | exists (VFloat (Qred (x + inject_Z y))), (Qred (x + inject_Z y))
    | exists (VFloat (Qred (x + y))), (Qred (x + y)) ];
    (split; [reflexivity |]); (split; [reflexivity |]);
    first [apply Qred_correct | rewrite inject_Z_plus; apply Qeq_refl].
Qed.

Lemma py_mul_num :
  exists r q, py_mul a b = Return r /\ num_of r = Some q /\ q == qa * qb.
Proof.
  destruct (num_of_as_num _ _ Ha) as [x [Hx Ex]].
  destruct (num_of_as_num _ _ Hb) as [y [Hy Ey]].
  unfold py_mul. rewrite Hx, Hy. subst qa qb.
  destruct x as [x | x], y as [y | y];
    [ exists (VInt (x * y)), (inject_Z (x * y))
    | exists (VFloat (Qred (inject_Z x * y))), (Qred (inject_Z x * y))
    | exists (VFloat (Qred (x * inject_Z y))), (Qred (x * inject_Z y))
    | exists (VFloat (Qred (x * y))), (Qred (x * y)) ];
    (split; [reflexivity |]); (split; [reflexivity |]);
    first [apply Qred_correct | rewrite inject_Z_mult; apply Qeq_refl].
Qed.

End Numbers.

Lemma py_ne_zero (b : pyval) (qb : Q) :
  num_of b = Some qb -> py_ne b (VInt 0) = negb (Qeq_bool qb 0).
Proof.
  intros Hb. unfold py_ne. f_equal.
  apply (py_eq_num b (VInt 0) qb 0 Hb). reflexivity.
Qed.

(** ** Unfolding [__call__] *)

Lemma call_gate (f : P_fn) (args : list pyval) :
  call f args =
  (b <- gate f args ;; if b then apply_value (value f) args else Return (VInt 0)).
Proof. unfold call, apply_value. destruct (value f); reflexivity. Qed.

Lemma call_unconditioned (e : evaluator) (args : list pyval) :
  call (mkP_fn e None) args = apply_value e args.
Proof. rewrite call_gate. reflexivity. Qed.

Lemma gate_false_condition (f : P_fn) (args : list pyval) :
  gate f args = Return false <->
  exists c t, condition f = Some c /\ c args = Return t /\ truthy t = false.
Proof.
  unfold gate. split.
  - destruct (condition f) as [c |]; [| discriminate].
    intros H. destruct (bind_inv _ _ _ H) as [t [Ht Hb]].
    exists c, t. repeat split; [exact Ht | congruence].
  - intros [c [t [-> [Ht Hb]]]]. rewrite Ht. simpl. rewrite Hb. reflexivity.
Qed.

Lemma gate_true_condition (f : P_fn) (args : list pyval) :
  gate f args = Return true <->
  condition f = None \/
  exists c t, condition f = Some c /\ c args = Return t /\ truthy t = true.
Proof.
  unfold gate. split.
  - destruct (condition f) as [c |]; [| left; reflexivity].
    intros H. destruct (bind_inv _ _ _ H) as [t [Ht Hb]].
    right. exists c, t. repeat split; [exact Ht | congruence].
  - intros [-> | [c [t [-> [Ht Hb]]]]]; [reflexivity |].
    rewrite Ht. simpl. rewrite Hb. reflexivity.
Qed.

(** ** Evaluation *)

(** C1. When [f] has a condition that is false at the arguments, the call
    returns the integer 0 whatever the evaluator is, so the evaluator is
    not run; when there is no condition or it holds, the call returns the
    evaluator applied to the arguments if it is a function, and the
    stored constant if it is a scalar. *)
Theorem call_contract (f : P_fn) (args : list pyval) (b : bool)
  (Hgate : gate f args = Return b) :
  (b = false <->
     exists c t, condition f = Some c /\ c args = Return t /\ truthy t = false)
  /\ (b = true <->
      condition f = None \/
      exists c t, condition f = Some c /\ c args = Return t /\ truthy t = true)
  /\ call f args =
     (if b
      then match value f with
           | Fn e => e args
           | Scalar v => Return v
           end
      else Return (VInt 0))
  /\ (b = false ->
      forall e : evaluator, call (mkP_fn e (condition f)) args = Return (VInt 0)).
Proof.
  split; [| split; [| split]].
  - rewrite <- gate_false_condition. split.
    + intros ->. exact Hgate.
    + intros H. congruence.
  - rewrite <- gate_true_condition. split.
    + intros ->. exact Hgate.
    + intros H. congruence.
  - rewrite call_gate, Hgate. simpl. destruct b, (value f); reflexivity.
  - intros -> e. rewrite call_gate. unfold gate in *. simpl.
    rewrite Hgate. reflexivity.
Qed.

Lemma call_contract_witness :
  gate (given (mkP_fn exploding None) (Some is_even) true) [VInt 3] = Return false
  /\ call (given (mkP_fn exploding None) (Some is_even) true) [VInt 3]
     = Return (VInt 0)
  /\ gate p_die_even [VInt 4] = Return true
  /\ call p_die_even [VInt 4] = Return (VFloat (1 # 6)).
Proof.
  split; [reflexivity |]. split.
  - exact (proj1 (proj2 (proj2 (call_contract
      (given (mkP_fn exploding None) (Some is_even) true) [VInt 3] false
      eq_refl)))).
  - split; [reflexivity |].
    exact (proj1 (proj2 (proj2
      (call_contract p_die_even [VInt 4] true eq_refl)))).
Defined.

(** ** The combinators *)

Lemma gate_conditional (f g : P_fn) (args : list pyval) :
  gate (conditional f g) args = gate f args.
Proof. reflexivity. Qed.

Lemma call_independent (f g : P_fn) (x : pyval) :
  call (independent f g) [x] =
  (a <- call f [x] ;; b <- call g [x] ;; py_add a b).
Proof. reflexivity. Qed.

Lemma call_dependent_pair (f g : P_fn) (x y : pyval) :
  call (dependent f g) [VTuple [x; y]] =
  (a <- call f [x] ;; b <- call g [y] ;; py_mul a b).
Proof. reflexivity. Qed.

Lemma call_dependent_single (f g : P_fn) (x : pyval) :
  is_tuple x = false ->
  call (dependent f g) [x] =
  (a <- call f [x] ;; b <- call g [x] ;; py_mul a b).
Proof.
  intros Hx. unfold dependent. rewrite call_unconditioned. simpl.
  rewrite Hx. reflexivity.
Qed.

(** C2. [f.conditional(g)] keeps the condition of [f]; where [g(x)] is
    the number zero it returns the integer 0, and where [g(x)] is a
    non-zero number it returns the quotient [f(x) / g(x)].  In the
    scenario of the test, [p_A.conditional(p_B)] is 1.0 at ['B'] and
    0.0 at ['A']. *)
Theorem conditional_contract (f g : P_fn) (x b : pyval) (qb : Q) (gf : bool)
  (Hgate : gate f [x] = Return gf)
  (Hg : call g [x] = Return b)
  (Hb : num_of b = Some qb) :
  condition (conditional f g) = condition f
  /\ (qb == 0 -> call (conditional f g) [x] = Return (VInt 0))
  /\ (forall (a : pyval) (qa : Q),
        call f [x] = Return a -> num_of a = Some qa -> ~ qb == 0 ->
        exists r q,
          call (conditional f g) [x] = Return r
          /\ num_of r = Some q /\ q == qa / qb)
  /\ (exists r, call p_A_given_B [VStr "B"] = Return r
                /\ py_eq r (VFloat 1) = true)
  /\ (exists r, call p_A_given_B [VStr "A"] = Return r
                /\ py_eq r (VFloat 0) = true).
Proof.
  assert (Hcall : call (conditional f g) [x] =
            if gf
            then if py_ne b (VInt 0)
                 then a <- call f [x] ;; py_truediv a b
                 else Return (VInt 0)
            else Return (VInt 0)).
  { rewrite call_gate, gate_conditional, Hgate. simpl.
    destruct gf; [| reflexivity].
    rewrite Hg. simpl. destruct (py_ne b (VInt 0)); [| reflexivity].
    destruct (call f [x]); reflexivity. }
  rewrite Hcall, (py_ne_zero b qb Hb).
  split; [reflexivity |]. split; [| split; [| split]].
  - intros Hz. apply Qeq_bool_iff in Hz. rewrite Hz.
    destruct gf; reflexivity.
  - intros a qa Hf Ha Hnz.
    assert (Hzb : Qeq_bool qb 0 = false).
    { destruct (Qeq_bool qb 0) eqn:E; [| reflexivity].
      apply Qeq_bool_iff in E. contradiction. }
    rewrite Hzb. simpl. destruct gf.
    + rewrite Hf. simpl. rewrite (py_truediv_num a b qa qb Ha Hb Hzb).
      exists (VFloat (Qred (qa / qb))), (Qred (qa / qb)).
      split; [reflexivity |]. split; [reflexivity |]. apply Qred_correct.
    + rewrite call_gate, Hgate in Hf. simpl in Hf.
      injection Hf as <-. simpl in Ha. injection Ha as <-.
      exists (VInt 0), (inject_Z 0).
      split; [reflexivity |]. split; [reflexivity |].
      unfold Qdiv. rewrite Qmult_0_l. apply Qeq_refl.
  - exists (VFloat 1). split; reflexivity.
  - exists (VInt 0). split; reflexivity.
Qed.

Lemma conditional_contract_witness :
  gate p_A [VStr "B"] = Return true
  /\ call p_B [VStr "B"] = Return (VFloat (1 # 2))
  /\ num_of (VFloat (1 # 2)) = Some (1 # 2)
  /\ exists r q,
       call (conditional p_A p_B) [VStr "B"] = Return r
       /\ num_of r = Some q /\ q == (1 # 2) / (1 # 2).
Proof.
  split; [reflexivity |]. split; [reflexivity |]. split; [reflexivity |].
  refine (proj1 (proj2 (proj2
    (conditional_contract p_A p_B (VStr "B") (VFloat (1 # 2)) (1 # 2) true
       eq_refl eq_refl eq_refl)))
    (VFloat (1 # 2)) (1 # 2) eq_refl eq_refl _).
  intros H. discriminate H.
Defined.

(** C3. [f.independent(g)] at [x] is the plain sum [f(x) + g(x)]: no
    joint term is subtracted and the sum is not clamped. *)
Theorem independent_is_plain_sum (f g : P_fn) (x a b : pyval) (qa qb : Q)
  (Hf : call f [x] = Return a) (Hg : call g [x] = Return b)
  (Ha : num_of a = Some qa) (Hb : num_of b = Some qb) :
  call (independent f g) [x] = py_add a b
  /\ exists r q,
       call (independent f g) [x] = Return r
       /\ num_of r = Some q /\ q == qa + qb.
Proof.
  rewrite call_independent, Hf, Hg. simpl.
  split; [reflexivity |]. apply (py_add_num a b qa qb Ha Hb).
Qed.

Lemma independent_is_plain_sum_witness :
  call certain [VStr "H"] = Return (VInt 1)
  /\ call (independent certain certain) [VStr "H"] = Return (VInt 2).
Proof.
  split; [reflexivity |].
  exact (proj1 (independent_is_plain_sum certain certain (VStr "H")
    (VInt 1) (VInt 1) 1 1 eq_refl eq_refl eq_refl eq_refl)).
Defined.

(** C8. [f.dependent(g)] at a pair [(x, y)] is [f(x) * g(y)], and at an
    input that is not a tuple it is [f(x) * g(x)]; at a pair neither
    operand is evaluated at the other's component. *)
Theorem dependent_contract (f g : P_fn) :
  (forall x y,
     call (dependent f g) [VTuple [x; y]] =
     (a <- call f [x] ;; b <- call g [y] ;; py_mul a b))
  /\ (forall x y a b,
        call f [x] = Return a -> call g [y] = Return b ->
        call (dependent f g) [VTuple [x; y]] = py_mul a b)
  /\ (forall x y a b qa qb,
        call f [x] = Return a -> call g [y] = Return b ->
        num_of a = Some qa -> num_of b = Some qb ->
        exists r q, call (dependent f g) [VTuple [x; y]] = Return r
                    /\ num_of r = Some q /\ q == qa * qb)
  /\ (forall x,
        is_tuple x = false ->
        call (dependent f g) [x] =
        (a <- call f [x] ;; b <- call g [x] ;; py_mul a b))
  /\ (forall x a b,
        is_tuple x = false ->
        call f [x] = Return a -> call g [x] = Return b ->
        call (dependent f g) [x] = py_mul a b)
  /\ (forall x a b qa qb,
        is_tuple x = false ->
        call f [x] = Return a -> call g [x] = Return b ->
        num_of a = Some qa -> num_of b = Some qb ->
        exists r q, call (dependent f g) [x] = Return r
                    /\ num_of r = Some q /\ q == qa * qb).
Proof.
  split; [| split; [| split; [| split; [| split]]]].
  - intros x y. apply call_dependent_pair.
  - intros x y a b Hf Hg. rewrite call_dependent_pair, Hf, Hg. reflexivity.
  - intros x y a b qa qb Hf Hg Ha Hb.
    rewrite call_dependent_pair, Hf, Hg. simpl.
    apply (py_mul_num a b qa qb Ha Hb).
  - intros x Hx. apply (call_dependent_single f g x Hx).
  - intros x a b Hx Hf Hg.
    rewrite (call_dependent_single f g x Hx), Hf, Hg. reflexivity.
  - intros x a b qa qb Hx Hf Hg Ha Hb.
    rewrite (call_dependent_single f g x Hx), Hf, Hg. simpl.
    apply (py_mul_num a b qa qb Ha Hb).
Qed.

Lemma dependent_contract_witness :
  call p_die [VStr "H"] = Raise TypeError
  /\ call (dependent p_coin p_die) [VTuple [VStr "H"; VInt 3]]
     = Return (VFloat (1 # 12))
  /\ call (dependent p_die p_coin) [VTuple [VInt 3; VStr "H"]]
     = Return (VFloat (1 # 12))
  /\ call (dependent p_die certain) [VInt 3] = Return (VFloat (1 # 6)).
Proof.
  split; [reflexivity |]. split; [| split].
  - exact (proj1 (proj2 (dependent_contract p_coin p_die))
      (VStr "H") (VInt 3) (VFloat (1 # 2)) (VFloat (1 # 6)) eq_refl eq_refl).
  - exact (proj1 (proj2 (dependent_contract p_die p_coin))
      (VInt 3) (VStr "H") (VFloat (1 # 6)) (VFloat (1 # 2)) eq_refl eq_refl).
  - exact (proj1 (proj2 (proj2 (proj2 (proj2
      (dependent_contract p_die certain)))))
      (VInt 3) (VFloat (1 # 6)) (VInt 1) eq_refl eq_refl eq_refl).
Defined.

Lemma call_false_gate (f : P_fn) (args : list pyval) :
  gate f args = Return false -> call f args = Return (VInt 0).
Proof. intros H. rewrite call_gate, H. reflexivity. Qed.

Lemma combined_through_calls (f f' g g' : P_fn) :
  (forall args, call f args = call f' args) ->
  (forall args, call g args = call g' args) ->
  forall args,
    call (independent f g) args = call (independent f' g') args
    /\ call (dependent f g) args = call (dependent f' g') args.
Proof.
  intros Hf Hg args. unfold independent, dependent.
  rewrite !call_unconditioned. simpl.
  destruct args as [| x [| y rest]]; simpl; try (split; reflexivity).
  split.
  - rewrite Hf, Hg. reflexivity.
  - destruct (is_tuple x).
    + destruct (py_index x 0) as [x0 | e0]; simpl; [| reflexivity].
      rewrite Hf. destruct (call f' [x0]); simpl; [| reflexivity].
      destruct (py_index x 1) as [x1 | e1]; simpl; [| reflexivity].
      rewrite Hg. reflexivity.
    + rewrite Hf, Hg. reflexivity.
Qed.

(** C10. The functions built by [independent] and [dependent] have no
    condition of their own, whatever the conditions of the operands: a
    call always runs the new evaluator.  That evaluator reaches the
    operands only through their own calls: its result is the sum or
    product of [f(...)] and [g(...)], operands that agree as functions
    give results that agree, and an operand whose condition is false
    contributes 0 while the other is still evaluated. *)
Theorem combined_has_no_condition (f g : P_fn) :
  condition (independent f g) = None
  /\ condition (dependent f g) = None
  /\ (forall args, gate (independent f g) args = Return true)
  /\ (forall args, gate (dependent f g) args = Return true)
  /\ (forall args,
        call (independent f g) args = apply_value (value (independent f g)) args)
  /\ (forall args,
        call (dependent f g) args = apply_value (value (dependent f g)) args)
  /\ (forall x,
        call (independent f g) [x] =
        (a <- call f [x] ;; b <- call g [x] ;; py_add a b))
  /\ (forall x y,
        call (dependent f g) [VTuple [x; y]] =
        (a <- call f [x] ;; b <- call g [y] ;; py_mul a b))
  /\ (forall x,
        is_tuple x = false ->
        call (dependent f g) [x] =
        (a <- call f [x] ;; b <- call g [x] ;; py_mul a b))
  /\ (forall f' g',
        (forall args, call f args = call f' args) ->
        (forall args, call g args = call g' args) ->
        forall args,
          call (independent f g) args = call (independent f' g') args
          /\ call (dependent f g) args = call (dependent f' g') args)
  /\ (forall x,
        gate f [x] = Return false ->
        call (independent f g) [x] = (b <- call g [x] ;; py_add (VInt 0) b))
  /\ (forall x a,
        gate g [x] = Return false -> call f [x] = Return a ->
        call (independent f g) [x] = py_add a (VInt 0))
  /\ (forall x y,
        gate f [x] = Return false ->
        call (dependent f g) [VTuple [x; y]] =
        (b <- call g [y] ;; py_mul (VInt 0) b))
  /\ (forall x y a,
        gate g [y] = Return false -> call f [x] = Return a ->
        call (dependent f g) [VTuple [x; y]] = py_mul a (VInt 0))
  /\ gate p_die_even [VInt 3] = Return false
  /\ call (independent p_die_even certain) [VInt 3] = Return (VInt 1)
  /\ call (dependent certain p_die_even) [VTuple [VInt 3; VInt 3]]
     = Return (VInt 0).
Proof.
  do 6 (split; [reflexivity |]).
  split; [intros x; apply call_independent |].
  split; [intros x y; apply call_dependent_pair |].
  split; [intros x Hx; apply (call_dependent_single f g x Hx) |].
  split; [intros f' g'; apply combined_through_calls |].
  split.
  { intros x Hx. rewrite call_independent, (call_false_gate f [x] Hx).
    reflexivity. }
  split.
  { intros x a Hx Hf.
    rewrite call_independent, Hf, (call_false_gate g [x] Hx). reflexivity. }
  split.
  { intros x y Hx. rewrite call_dependent_pair, (call_false_gate f [x] Hx).
    reflexivity. }
  split.
  { intros x y a Hy Hf.
    rewrite call_dependent_pair, Hf, (call_false_gate g [y] Hy). reflexivity. }
  repeat split.
Qed.

(** ** Where the source departs from the described behaviour *)

(** C4. The die and the coin combined with [independent], evaluated at
    the pair [(3, 'H')] as the test does: the lambda of [independent]
    hands the whole pair to the die, whose comparison [1 <= x] is not
    defined between an integer and a tuple, so the call raises; the sum
    of the two separate evaluations would be 2/3. *)
Theorem die_coin_pair_raises :
  call p_die_coin [VTuple [VInt 3; VStr "H"]] = Raise TypeError
  /\ call p_die [VTuple [VInt 3; VStr "H"]] = Raise TypeError
  /\ (a <- call p_die [VInt 3] ;; b <- call p_coin [VStr "H"] ;; py_add a b)
     = Return (VFloat (2 # 3)).
Proof. repeat split. Qed.

(** C5. [f.mutually_exclusive(g)] never yields a function: its body
    looks the bare name [independent] up at module level, where it is
    not bound. *)
Theorem mutually_exclusive_raises (f g : P_fn) :
  mutually_exclusive f g = Raise (NameError "independent").
Proof. reflexivity. Qed.

(** C6. [given] keeps the evaluator, and with [replace] true or no
    prior condition the new condition is the argument.  With [replace]
    false and a prior condition, [self.condition and condition] is again
    just the argument: on the die restricted to even rolls, adding
    [4 <= x] without replacing lets 5 through although 5 is odd. *)
Theorem given_keep_drops_prior :
  (forall f c r, value (given f c r) = value f)
  /\ (forall f c, condition (given f c true) = c)
  /\ (forall f c r, condition f = None -> condition (given f c r) = c)
  /\ (forall f c1 c2,
        condition f = Some c1 -> condition (given f c2 false) = c2)
  /\ is_even [VInt 5] = Return (VBool false)
  /\ at_least_four [VInt 5] = Return (VBool true)
  /\ call (given p_die_even (Some at_least_four) false) [VInt 5]
     = Return (VFloat (1 # 6)).
Proof.
  split; [| split; [| split; [| split]]].
  - intros f c r. unfold given.
    destruct (negb r && is_not_None (condition f)); reflexivity.
  - intros f c. reflexivity.
  - intros f c r Hnone. unfold given. rewrite Hnone.
    rewrite andb_false_r. reflexivity.
  - intros f c1 c2 Hprior. unfold given. rewrite Hprior. reflexivity.
  - repeat split.
Qed.

(** C7. Two calls of the documented interface raise: building
    [f.mutually_exclusive(g)] for any operands, here the die and the
    coin, and evaluating the test's [p_die_coin] at [(3, 'H')]. *)
Theorem documented_calls_raise :
  mutually_exclusive p_die p_coin = Raise (NameError "independent")
  /\ lookup_global "independent" = Raise (NameError "independent")
  /\ call (independent p_die p_coin) [VTuple [VInt 3; VStr "H"]]
     = Raise TypeError.
Proof. repeat split. Qed.

(** The degenerate cases the source does branch on return a number. *)
Lemma degenerate_cases_return :
  call (conditional p_A p_B) [VStr "A"] = Return (VInt 0)
  /\ call p_die_even [VInt 3] = Return (VInt 0)
  /\ call (dependent p_die p_die) [VInt 3] = Return (VFloat (1 # 36)).
Proof. repeat split. Qed.

(** ** The unit interval *)

Local Open Scope Q_scope.

Lemma in_unit_zero : in_unit (VInt 0).
Proof. exists 0. split; [reflexivity |]. split; discriminate. Qed.

Lemma evaluator_calls_in_unit (p : P_fn) :
  evaluator_in_unit (value p) -> calls_in_unit p.
Proof.
  intros He args v Hv. rewrite call_gate in Hv.
  destruct (bind_inv _ _ _ Hv) as [b [_ Hb]]. destruct b.
  - exact (He args v Hb).
  - injection Hb as <-. exact in_unit_zero.
Qed.

Lemma lambda1_inv (body : pyval -> result pyval) (args : list pyval) (v : pyval) :
  lambda1 body args = Return v -> exists x, args = [x] /\ body x = Return v.
Proof.
  destruct args as [| x [| y rest]]; simpl; intros H; try discriminate H.
  exists x. split; [reflexivity | exact H].
Qed.

Ltac bind_step H x Hx :=
  let H' := fresh H in
  destruct (bind_inv _ _ _ H) as [x [Hx H']]; clear H; rename H' into H.

Lemma evaluator_call_in_unit_at (p : P_fn) (args : list pyval) (v : pyval) :
  evaluator_in_unit_at (value p) args -> call p args = Return v -> in_unit v.
Proof.
  intros He Hv. rewrite call_gate in Hv.
  destruct (bind_inv _ _ _ Hv) as [b [_ Hb]]. destruct b.
  - exact (He v Hb).
  - injection Hb as <-. exact in_unit_zero.
Qed.

Lemma product_in_unit (a b v : pyval) :
  in_unit a -> in_unit b -> py_mul a b = Return v -> in_unit v.
Proof.
  intros [qa [Na [La Ua]]] [qb [Nb [Lb Ub]]] Hv.
  destruct (py_mul_num a b qa qb Na Nb) as [r [qr [Hr [Nr Er]]]].
  assert (r = v) by congruence. subst r.
  exists qr. split; [exact Nr |]. rewrite Er. split; nra.
Qed.

Lemma dependent_pair_in_unit (p q : P_fn) (x y : pyval) (rest : list pyval) :
  evaluator_in_unit_at (value p) [x] -> evaluator_in_unit_at (value q) [y] ->
  evaluator_in_unit_at (value (dependent p q)) [VTuple (x :: y :: rest)].
Proof.
  intros Hp Hq v Hv. simpl in Hv.
  bind_step Hv a Ha. bind_step Hv b Hb.
  exact (product_in_unit a b v
           (evaluator_call_in_unit_at p [x] a Hp Ha)
           (evaluator_call_in_unit_at q [y] b Hq Hb) Hv).
Qed.

Lemma dependent_single_in_unit (p q : P_fn) (x : pyval) :
  is_tuple x = false ->
  evaluator_in_unit_at (value p) [x] -> evaluator_in_unit_at (value q) [x] ->
  evaluator_in_unit_at (value (dependent p q)) [x].
Proof.
  intros Hx Hp Hq v Hv. simpl in Hv. rewrite Hx in Hv.
  bind_step Hv a Ha. bind_step Hv b Hb.
  exact (product_in_unit a b v
           (evaluator_call_in_unit_at p [x] a Hp Ha)
           (evaluator_call_in_unit_at q [x] b Hq Hb) Hv).
Qed.

Lemma independent_in_unit (p q : P_fn) (x : pyval) :
  evaluator_in_unit_at (value p) [x] -> evaluator_in_unit_at (value q) [x] ->
  sum_bounded_at p q x ->
  evaluator_in_unit_at (value (independent p q)) [x].
Proof.
  intros Hp Hq Hsum v Hv. simpl in Hv.
  bind_step Hv a Ha. bind_step Hv b Hb.
  destruct (evaluator_call_in_unit_at p [x] a Hp Ha) as [qa [Na [La Ua]]].
  destruct (evaluator_call_in_unit_at q [x] b Hq Hb) as [qb [Nb [Lb Ub]]].
  pose proof (Hsum a b qa qb Ha Hb Na Nb) as Hle.
  destruct (py_add_num a b qa qb Na Nb) as [r [qr [Hr [Nr Er]]]].
  assert (r = v) by congruence. subst r.
  exists qr. split; [exact Nr |]. rewrite Er. split; lra.
Qed.

Lemma conditional_in_unit (p q : P_fn) (x : pyval) :
  evaluator_in_unit_at (value p) [x] -> evaluator_in_unit_at (value q) [x] ->
  ratio_bounded_at p q x ->
  evaluator_in_unit_at (value (conditional p q)) [x].
Proof.
  intros Hp Hq Hratio v Hv. simpl in Hv.
  bind_step Hv d Hd.
  destruct (evaluator_call_in_unit_at q [x] d Hq Hd) as [qd [Nd [Ld Ud]]].
  rewrite (py_ne_zero d qd Nd) in Hv.
  destruct (Qeq_bool qd 0) eqn:Ez; simpl in Hv.
  - injection Hv as <-. exact in_unit_zero.
  - bind_step Hv a Ha. bind_step Hv b Hb.
    assert (b = d) by congruence. subst b.
    destruct (evaluator_call_in_unit_at p [x] a Hp Ha) as [qa [Na [La Ua]]].
    assert (Hnz : ~ qd == 0).
    { intros E. apply Qeq_bool_iff in E. congruence. }
    pose proof (Hratio a d qa qd Ha Hd Na Nd Hnz) as Hle.
    rewrite (py_truediv_num a d qa qd Na Nd Ez) in Hv.
    injection Hv as <-.
    assert (Hpos : 0 < qd) by (apply Qle_lteq in Ld; destruct Ld as [L | E];
      [exact L | symmetry in E; contradiction]).
    exists (Qred (qa / qd)). split; [reflexivity |].
    rewrite Qred_correct. split.
    + apply Qle_shift_div_l; [exact Hpos | lra].
    + apply Qle_shift_div_r; [exact Hpos | lra].
Qed.

Lemma composed_evaluator_in_unit (p : P_fn) (args : list pyval) :
  Composed p args -> evaluator_in_unit_at (value p) args.
Proof.
  induction 1 as [p args He | p c r args Hp IH
                  | p q x y rest Hp IHp Hq IHq
                  | p q x Hx Hp IHp Hq IHq
                  | p q x Hp IHp Hq IHq Hsum
                  | p q x Hp IHp Hq IHq Hratio].
  - exact He.
  - unfold given. destruct (negb r && is_not_None (condition p)); exact IH.
  - apply dependent_pair_in_unit; assumption.
  - apply dependent_single_in_unit; assumption.
  - apply independent_in_unit; assumption.
  - apply conditional_in_unit; assumption.
Qed.

Lemma in_unit_float (q : Q) : 0 <= q -> q <= 1 -> in_unit (VFloat q).
Proof. intros L U. exists q. split; [reflexivity |]. split; assumption. Qed.

Lemma die_in_unit : evaluator_in_unit (value p_die).
Proof.
  intros args v Hv. simpl in Hv.
  destruct (lambda1_inv _ _ _ Hv) as [x [-> Hx]]. clear Hv.
  bind_step Hx lo Hlo. bind_step Hx inside Hin.
  destruct inside.
  - vm_compute in Hx. injection Hx as <-.
    apply in_unit_float; discriminate.
  - injection Hx as <-. exact in_unit_zero.
Qed.

Lemma coin_in_unit : evaluator_in_unit (value p_coin).
Proof.
  intros args v Hv. simpl in Hv.
  destruct (lambda1_inv _ _ _ Hv) as [x [-> Hx]]. clear Hv.
  destruct (py_in x [VStr "H"; VStr "T"]).
  - vm_compute in Hx. injection Hx as <-.
    apply in_unit_float; discriminate.
  - injection Hx as <-. exact in_unit_zero.
Qed.

Lemma scalar_in_unit (v : pyval) : in_unit v -> evaluator_in_unit (Scalar v).
Proof. intros Hv args w Hw. injection Hw as <-. exact Hv. Qed.

(** C9, as stated, fails: with evaluators in the unit interval,
    [independent] yields 1 + 1 = 2 and [conditional] yields
    1 / (1/2) = 2. *)
Lemma unit_interval_not_closed :
  evaluator_in_unit (value certain)
  /\ evaluator_in_unit (value half)
  /\ call (independent certain certain) [VInt 3] = Return (VInt 2)
  /\ ~ in_unit (VInt 2)
  /\ call (conditional certain half) [VInt 3] = Return (VFloat 2)
  /\ ~ in_unit (VFloat 2).
Proof.
  split; [| split; [| split; [| split; [| split]]]].
  - apply scalar_in_unit. exists 1. split; [reflexivity |]. split; discriminate.
  - apply scalar_in_unit. apply in_unit_float; discriminate.
  - reflexivity.
  - intros [q [Hq [_ Hle]]]. injection Hq as <-. apply Hle. reflexivity.
  - reflexivity.
  - intros [q [Hq [_ Hle]]]. injection Hq as <-. apply Hle. reflexivity.
Qed.

(** C9, amended. A function composed from evaluators that return values
    in the unit interval on the inputs they receive, freely with [given]
    and [dependent], with [independent] only where the operands' values
    at the input sum to at most 1 and with [conditional] only where the
    numerator at the input is at most the denominator, returns values in
    the unit interval; nothing is clamped. *)
Theorem composed_in_unit (p : P_fn) (args : list pyval) (v : pyval)
  (Hp : Composed p args) (Hv : call p args = Return v) :
  in_unit v.
Proof.
  exact (evaluator_call_in_unit_at p args v
           (composed_evaluator_in_unit p args Hp) Hv).
Qed.

Lemma identity_at_half : Composed p_identity [VFloat (1 # 2)].
Proof.
  apply Composed_base. intros v Hv. injection Hv as <-.
  apply in_unit_float; discriminate.
Qed.

Lemma identity_not_in_unit :
  call p_identity [VInt 5] = Return (VInt 5) /\ ~ in_unit (VInt 5).
Proof.
  split; [reflexivity |].
  intros [q [Hq [_ Hle]]]. injection Hq as <-. apply Hle. reflexivity.
Qed.

Lemma square_plus_composed : Composed square_plus [VFloat (1 # 2)].
Proof.
  apply Composed_given. apply Composed_conditional.
  - apply Composed_independent.
    + apply Composed_dependent_single;
        [reflexivity | exact identity_at_half | exact identity_at_half].
    + exact identity_at_half.
    + intros a b qa qb Ha Hb Na Nb.
      vm_compute in Ha. vm_compute in Hb.
      injection Ha as <-. injection Hb as <-.
      injection Na as <-. injection Nb as <-. discriminate.
  - apply Composed_base. intros v Hv. injection Hv as <-.
    exists 1. split; [reflexivity |]. split; discriminate.
  - intros a b qa qb Ha Hb Na Nb _.
    vm_compute in Ha. vm_compute in Hb.
    injection Ha as <-. injection Hb as <-.
    injection Na as <-. injection Nb as <-. discriminate.
Qed.

Lemma even_die_and_coin_composed :
  Composed even_die_and_coin [VTuple [VInt 4; VStr "H"]].
Proof.
  apply Composed_dependent_pair.
  - apply Composed_given. apply Composed_base.
    intros v Hv. exact (die_in_unit [VInt 4] v Hv).
  - apply Composed_base. intros v Hv. exact (coin_in_unit [VStr "H"] v Hv).
Qed.

Lemma composed_in_unit_witness :
  Composed square_plus [VFloat (1 # 2)]
  /\ call square_plus [VFloat (1 # 2)] = Return (VFloat (3 # 4))
  /\ in_unit (VFloat (3 # 4))
  /\ Composed even_die_and_coin [VTuple [VInt 4; VStr "H"]]
  /\ call even_die_and_coin [VTuple [VInt 4; VStr "H"]]
     = Return (VFloat (1 # 12))
  /\ in_unit (VFloat (1 # 12)).
Proof.
  split; [exact square_plus_composed |]. split; [reflexivity |].
  split.
  - exact (composed_in_unit square_plus [VFloat (1 # 2)] (VFloat (3 # 4))
             square_plus_composed eq_refl).
  - split; [exact even_die_and_coin_composed |]. split; [reflexivity |].
    exact (composed_in_unit even_die_and_coin [VTuple [VInt 4; VStr "H"]]
             (VFloat (1 # 12)) even_die_and_coin_composed eq_refl).
Defined.

(** ** The class [P]: construction and arithmetic *)

Section ClassP.

Import PClass.

Lemma py_lt_num (a b : pyval) (qa qb : Q) :
  num_of a = Some qa -> num_of b = Some qb ->
  py_lt a b = Return (negb (Qle_bool qb qa)).
Proof.
  intros Ha Hb.
  destruct (num_of_as_num _ _ Ha) as [x [Hx Ex]].
  destruct (num_of_as_num _ _ Hb) as [y [Hy Ey]].
  destruct a; simpl in Hx |- *; try discriminate Hx;
    rewrite Hy; injection Hx as <-; subst; reflexivity.
Qed.

Lemma py_sub_num (a b : pyval) (qa qb : Q) :
  num_of a = Some qa -> num_of b = Some qb ->
  exists r q, py_sub a b = Return r /\ num_of r = Some q /\ q == qa - qb.
Proof.
  intros Ha Hb.
  destruct (num_of_as_num _ _ Ha) as [x [Hx Ex]].
  destruct (num_of_as_num _ _ Hb) as [y [Hy Ey]].
  unfold py_sub. rewrite Hx, Hy. subst qa qb.
  destruct x as [x | x], y as [y | y];
    [ exists (VInt (x - y)), (inject_Z (x - y))
    | exists (VFloat (Qred (inject_Z x - y))), (Qred (inject_Z x - y))
    | exists (VFloat (Qred (x - inject_Z y))), (Qred (x - inject_Z y))
    | exists (VFloat (Qred (x - y))), (Qred (x - y)) ];
    (split; [reflexivity |]); (split; [reflexivity |]);
    try apply Qred_correct.
  unfold Z.sub, Qminus. rewrite inject_Z_plus, inject_Z_opp. apply Qeq_refl.
Qed.

Lemma py_neg_num (a : pyval) (qa : Q) :
  num_of a = Some qa ->
  exists r q, py_neg a = Return r /\ num_of r = Some q /\ q == - qa.
Proof.
  intros Ha.
  destruct (num_of_as_num _ _ Ha) as [x [Hx Ex]].
  unfold py_neg. rewrite Hx. subst qa.
  destruct x as [x | x];
    [ exists (VInt (- x)), (inject_Z (- x))
    | exists (VFloat (Qred (- x))), (Qred (- x)) ];
    (split; [reflexivity |]); (split; [reflexivity |]);
    try apply Qred_correct.
  rewrite inject_Z_opp. apply Qeq_refl.
Qed.

Lemma Qle_bool_false (x y : Q) : Qle_bool x y = false <-> y < x.
Proof.
  split.
  - intros H. apply Qnot_le_lt. intros L. apply Qle_bool_iff in L. congruence.
  - intros H. destruct (Qle_bool x y) eqn:E; [| reflexivity].
    apply Qle_bool_iff in E. apply Qlt_not_le in H. contradiction.
Qed.

Lemma init_num (x : pyval) (q : Q) :
  num_of x = Some q ->
  __init__ x =
  if Qle_bool (-1) q && Qle_bool q 1
  then Return (mkP x x x x) else Raise out_of_range.
Proof.
  intros Hx. unfold __init__, py_gt.
  rewrite (py_lt_num x (VInt (-1)) q (inject_Z (-1)) Hx eq_refl).
  rewrite (py_lt_num (VInt 1) x (inject_Z 1) q eq_refl Hx).
  change (inject_Z (-1)) with (-1). change (inject_Z 1) with 1.
  destruct (Qle_bool (-1) q), (Qle_bool q 1); reflexivity.
Qed.

Lemma init_in_range (x : pyval) (q : Q) :
  num_of x = Some q -> -1 <= q -> q <= 1 ->
  __init__ x = Return (mkP x x x x) /\ holds (mkP x x x x) q.
Proof.
  intros Hx L U. rewrite (init_num x q Hx).
  apply Qle_bool_iff in L as L'. apply Qle_bool_iff in U as U'.
  rewrite L', U'. split; [reflexivity |].
  split; [exact Hx | split; assumption].
Qed.

Lemma init_out_of_range (x : pyval) (q : Q) :
  num_of x = Some q -> q < -1 \/ 1 < q ->
  __init__ x = Raise out_of_range.
Proof.
  intros Hx H. rewrite (init_num x q Hx).
  destruct H as [H | H]; apply Qle_bool_false in H; rewrite H.
  - reflexivity.
  - rewrite andb_false_r. reflexivity.
Qed.

Lemma init_not_a_number (x : pyval) :
  num_of x = None -> __init__ x = Raise TypeError.
Proof. destruct x; simpl; intros H; try discriminate H; reflexivity. Qed.

(** X1. The constructor returns for every number from -1 to 1, negative
    ones included, and raises [ValueError] for every number outside;
    [None], a string or a tuple raises [TypeError] from the comparison.
    Whenever it returns, the four attributes are bound to the value as
    given. *)
Theorem constructor_accepts (x : pyval) :
  (forall q, num_of x = Some q -> -1 <= q -> q <= 1 ->
     __init__ x = Return (mkP x x x x))
  /\ (forall q, num_of x = Some q -> q < -1 \/ 1 < q ->
        __init__ x = Raise out_of_range)
  /\ (num_of x = None -> __init__ x = Raise TypeError)
  /\ (forall p, __init__ x = Return p ->
        value p = x /\ val p = x /\ v p = x /\ as_float p = x).
Proof.
  split; [| split; [| split]].
  - intros q Hx L U. exact (proj1 (init_in_range x q Hx L U)).
  - exact (init_out_of_range x).
  - exact (init_not_a_number x).
  - intros p H. destruct (num_of x) as [q |] eqn:Hx.
    + rewrite (init_num x q Hx) in H.
      destruct (Qle_bool (-1) q && Qle_bool q 1); [| discriminate H].
      injection H as <-. repeat split.
    + rewrite (init_not_a_number x Hx) in H. discriminate H.
Qed.

Section Arithmetic.

Variables (p1 p2 : P) (qa qb : Q).
Hypothesis (H1 : holds p1 qa) (H2 : holds p2 qb).

Lemma mul_returns :
  exists r q, __mul__ p1 (Obj p2) = Return r /\ holds r q /\ q == qa * qb.
Proof.
  destruct H1 as [Na [La Ua]], H2 as [Nb [Lb Ub]].
  destruct (py_mul_num _ _ _ _ Na Nb) as [m [q [Hm [Nm Em]]]].
  assert (L : -1 <= q) by (rewrite Em; nra).
  assert (U : q <= 1) by (rewrite Em; nra).
  destruct (init_in_range m q Nm L U) as [Hi Hh].
  exists (mkP m m m m), q. unfold __mul__. simpl. rewrite Hm. simpl.
  split; [exact Hi | split; [exact Hh | exact Em]].
Qed.

Lemma add_sum :
  exists s q, py_add (v p1) (v p2) = Return s /\ num_of s = Some q
              /\ q == qa + qb
              /\ __add__ p1 (Obj p2) true = __init__ s.
Proof.
  destruct H1 as [Na _], H2 as [Nb _].
  destruct (py_add_num _ _ _ _ Na Nb) as [s [q [Hs [Ns Es]]]].
  exists s, q. split; [exact Hs |]. split; [exact Ns |]. split; [exact Es |].
  unfold __add__. simpl. rewrite Hs. reflexivity.
Qed.

Lemma add_returns :
  -1 <= qa + qb -> qa + qb <= 1 ->
  exists r q, __add__ p1 (Obj p2) true = Return r /\ holds r q /\ q == qa + qb.
Proof.
  intros L U. destruct add_sum as [s [q [_ [Ns [Es Hadd]]]]].
  assert (L' : -1 <= q) by (rewrite Es; exact L).
  assert (U' : q <= 1) by (rewrite Es; exact U).
  destruct (init_in_range s q Ns L' U') as [Hi Hh].
  exists (mkP s s s s), q. rewrite Hadd.
  split; [exact Hi | split; [exact Hh | exact Es]].
Qed.

Lemma add_raises :
  qa + qb < -1 \/ 1 < qa + qb ->
  __add__ p1 (Obj p2) true = Raise out_of_range.
Proof.
  intros H. destruct add_sum as [s [q [_ [Ns [Es Hadd]]]]].
  rewrite Hadd. apply (init_out_of_range s q Ns).
  rewrite Es. exact H.
Qed.

Lemma add_general_returns :
  0 <= qa -> 0 <= qb ->
  exists r q, __add__ p1 (Obj p2) false = Return r /\ holds r q
              /\ q == qa + qb - qa * qb /\ 0 <= q.
Proof.
  intros Pa Pb.
  destruct H1 as [Na [La Ua]], H2 as [Nb [Lb Ub]].
  destruct (py_add_num _ _ _ _ Na Nb) as [s [qs [Hs [Ns Es]]]].
  destruct (py_mul_num _ _ _ _ Na Nb) as [m [qm [Hm [Nm Em]]]].
  destruct (py_sub_num s m qs qm Ns Nm) as [d [q [Hd [Nd Ed]]]].
  assert (E : q == qa + qb - qa * qb) by (rewrite Ed, Es, Em; reflexivity).
  assert (L0 : 0 <= q) by (rewrite E; nra).
  assert (L : -1 <= q) by lra.
  assert (U : q <= 1) by (rewrite E; nra).
  destruct (init_in_range d q Nd L U) as [Hi Hh].
  exists (mkP d d d d), q. unfold __add__. simpl.
  rewrite Hs. simpl. rewrite Hm. simpl. rewrite Hd. simpl.
  split; [exact Hi | split; [exact Hh | split; [exact E | exact L0]]].
Qed.

End Arithmetic.

Lemma negated_returns (x : pyval) (q : Q) :
  num_of x = Some q -> -1 <= q -> q <= 1 ->
  exists n r qn, py_neg x = Return n /\ __init__ n = Return r
                 /\ holds r qn /\ qn == - q.
Proof.
  intros Nx L U.
  destruct (py_neg_num x q Nx) as [n [qn [Hn [Nn En]]]].
  assert (L' : -1 <= qn) by (rewrite En; lra).
  assert (U' : qn <= 1) by (rewrite En; lra).
  destruct (init_in_range n qn Nn L' U') as [Hi Hh].
  exists n, (mkP n n n n), qn. repeat (split; [assumption |]). exact En.
Qed.

Lemma sub_returns (p1 p2 : P) (qa qb : Q) :
  holds p1 qa -> holds p2 qb -> -1 <= qa - qb -> qa - qb <= 1 ->
  exists r q, __sub__ p1 (Obj p2) true = Return r /\ holds r q /\ q == qa - qb.
Proof.
  intros H1 H2 L U. destruct H2 as [Nb [Lb Ub]].
  destruct (negated_returns (v p2) qb Nb Lb Ub) as [n [o [qn [Hn [Ho [Hh En]]]]]].
  assert (L' : -1 <= qa + qn) by (rewrite En; lra).
  assert (U' : qa + qn <= 1) by (rewrite En; lra).
  destruct (add_returns p1 o qa qn H1 Hh L' U') as [r [q [Hr [Hq Eq]]]].
  exists r, q. unfold __sub__. rewrite Hn. simpl. rewrite Ho. simpl.
  split; [exact Hr | split; [exact Hq |]]. rewrite Eq, En. lra.
Qed.

Lemma sub_raises (p1 p2 : P) (qa qb : Q) :
  holds p1 qa -> holds p2 qb -> qa - qb < -1 \/ 1 < qa - qb ->
  __sub__ p1 (Obj p2) true = Raise out_of_range.
Proof.
  intros H1 H2 H. destruct H2 as [Nb [Lb Ub]].
  destruct (negated_returns (v p2) qb Nb Lb Ub) as [n [o [qn [Hn [Ho [Hh En]]]]]].
  unfold __sub__. rewrite Hn. simpl. rewrite Ho. simpl.
  apply (add_raises p1 o qa qn H1 Hh). rewrite En.
  destruct H as [H | H]; [left | right]; lra.
Qed.

Lemma holds_float (q : Q) :
  -1 <= q -> q <= 1 -> holds (mkP (VFloat q) (VFloat q) (VFloat q) (VFloat q)) q.
Proof. intros L U. split; [reflexivity | split; assumption]. Qed.

(** X2. Multiplying two probability objects never fails: the product of
    two numbers between -1 and 1 passes the constructor's check.  [&],
    [p_and] and [*] give the same object. *)
Theorem product_closed (p1 p2 : P) (qa qb : Q)
  (H1 : holds p1 qa) (H2 : holds p2 qb) :
  exists r q,
    __mul__ p1 (Obj p2) = Return r /\ holds r q /\ q == qa * qb
    /\ __and__ p1 (Obj p2) = Return r /\ p_and p1 (Obj p2) = Return r.
Proof.
  destruct (mul_returns p1 p2 qa qb H1 H2) as [r [q [Hr [Hq Eq]]]].
  exists r, q. unfold p_and, __and__. repeat (split; [assumption |]). exact Hr.
Qed.

Lemma holds_04 : holds p_04 (2 # 5).
Proof. apply holds_float; discriminate. Qed.

Lemma holds_02 : holds p_02 (1 # 5).
Proof. apply holds_float; discriminate. Qed.

Lemma holds_06 : holds p_06 (3 # 5).
Proof. apply holds_float; discriminate. Qed.

Lemma product_closed_witness :
  exists r q,
    __mul__ p_04 (Obj p_02) = Return r /\ holds r q /\ q == (2 # 5) * (1 # 5)
    /\ __and__ p_04 (Obj p_02) = Return r /\ p_and p_04 (Obj p_02) = Return r.
Proof.
  exact (product_closed p_04 p_02 (2 # 5) (1 # 5) holds_04 holds_02).
Defined.

(** X3. [+] with the default flag adds the two numbers and hands the sum
    to the constructor: it returns when the sum lies between -1 and 1,
    and raises [ValueError] when the sum is outside by at least the gap
    to the next [float], so two probabilities such as 0.6 and 0.6
    cannot be added. *)
Theorem sum_checked (p1 p2 : P) (qa qb : Q)
  (H1 : holds p1 qa) (H2 : holds p2 qb) :
  (-1 <= qa + qb -> qa + qb <= 1 ->
     exists r q, __add__ p1 (Obj p2) true = Return r /\ holds r q
                 /\ q == qa + qb)
  /\ (qa + qb <= -1 - ulp_one \/ 1 + ulp_one <= qa + qb ->
      __add__ p1 (Obj p2) true = Raise out_of_range
      /\ p_add p1 (Obj p2) true = Raise out_of_range).
Proof.
  split.
  - exact (add_returns p1 p2 qa qb H1 H2).
  - intros H. unfold p_add.
    assert (H' : qa + qb < -1 \/ 1 < qa + qb).
    { unfold ulp_one in H. destruct H as [H | H]; [left | right]; lra. }
    split; exact (add_raises p1 p2 qa qb H1 H2 H').
Qed.

Lemma sum_checked_witness :
  __add__ p_06 (Obj p_06) true = Raise out_of_range
  /\ exists r q, __add__ p_04 (Obj p_02) true = Return r /\ holds r q
                 /\ q == (2 # 5) + (1 # 5).
Proof.
  split.
  - refine (proj1 (proj2 (sum_checked p_06 p_06 (3 # 5) (3 # 5)
      holds_06 holds_06) _)).
    right. discriminate.
  - refine (proj1 (sum_checked p_04 p_02 (2 # 5) (1 # 5)
      holds_04 holds_02) _ _); discriminate.
Defined.

(** X4. [+] with [independent=False] computes [a + b - a * b]; on two
    numbers between 0 and 1 the result is again between 0 and 1, so the
    call never fails there. *)
Theorem general_sum_closed (p1 p2 : P) (qa qb : Q)
  (H1 : holds p1 qa) (H2 : holds p2 qb) (Pa : 0 <= qa) (Pb : 0 <= qb) :
  exists r q,
    __add__ p1 (Obj p2) false = Return r /\ holds r q
    /\ q == qa + qb - qa * qb /\ 0 <= q /\ q <= 1.
Proof.
  destruct (add_general_returns p1 p2 qa qb H1 H2 Pa Pb)
    as [r [q [Hr [Hq [Eq L0]]]]].
  exists r, q. repeat (split; [assumption |]). exact (proj2 (proj2 Hq)).
Qed.

Lemma general_sum_closed_witness :
  exists r q,
    __add__ p_06 (Obj p_06) false = Return r /\ holds r q
    /\ q == (3 # 5) + (3 # 5) - (3 # 5) * (3 # 5) /\ 0 <= q /\ q <= 1.
Proof.
  refine (general_sum_closed p_06 p_06 (3 # 5) (3 # 5) holds_06 holds_06 _ _);
    discriminate.
Defined.

(** X5. [|] multiplies, then adds with the default flag, then subtracts
    the product.  On two numbers between 0 and 1 it returns
    [a + b - a * b] when [a + b] is at most 1, and raises [ValueError]
    when [a + b] exceeds 1 by at least the gap to the next [float],
    although the union itself is at most 1. *)
Theorem union_needs_small_sum (p1 p2 : P) (qa qb : Q)
  (H1 : holds p1 qa) (H2 : holds p2 qb) (Pa : 0 <= qa) (Pb : 0 <= qb) :
  (qa + qb <= 1 ->
     exists r q, __or__ p1 (Obj p2) = Return r /\ holds r q
                 /\ q == qa + qb - qa * qb)
  /\ (1 + ulp_one <= qa + qb ->
      __or__ p1 (Obj p2) = Raise out_of_range
      /\ p_or p1 (Obj p2) = Raise out_of_range
      /\ qa + qb - qa * qb <= 1).
Proof.
  destruct (mul_returns p1 p2 qa qb H1 H2) as [m [qm [Hm [Hqm Em]]]].
  assert (Hor : __or__ p1 (Obj p2) =
            (s <- __add__ p1 (Obj p2) true ;; __sub__ s (Obj m) true)).
  { unfold __or__. simpl. rewrite Hm. reflexivity. }
  pose proof H1 as [Na [La Ua]]. pose proof H2 as [Nb [Lb Ub]]. split.
  - intros Hsum.
    assert (L : -1 <= qa + qb) by lra.
    destruct (add_returns p1 p2 qa qb H1 H2 L Hsum) as [s [qs [Hs [Hqs Es]]]].
    assert (L' : -1 <= qs - qm) by (rewrite Es, Em; nra).
    assert (U' : qs - qm <= 1) by (rewrite Es, Em; nra).
    destruct (sub_returns s m qs qm Hqs Hqm L' U') as [r [q [Hr [Hq Eq]]]].
    exists r, q. rewrite Hor, Hs. simpl.
    split; [exact Hr | split; [exact Hq |]]. rewrite Eq, Es, Em. reflexivity.
  - intros Hgap. unfold p_or. rewrite Hor.
    assert (Hsum : 1 < qa + qb) by (unfold ulp_one in Hgap; lra).
    rewrite (add_raises p1 p2 qa qb H1 H2 (or_intror Hsum)).
    split; [reflexivity | split; [reflexivity | nra]].
Qed.

Lemma union_needs_small_sum_witness :
  __or__ p_06 (Obj p_06) = Raise out_of_range
  /\ exists r q, __or__ p_04 (Obj p_02) = Return r /\ holds r q
                 /\ q == (2 # 5) + (1 # 5) - (2 # 5) * (1 # 5).
Proof.
  split.
  - refine (proj1 (proj2 (union_needs_small_sum p_06 p_06 (3 # 5) (3 # 5)
      holds_06 holds_06 _ _) _)); discriminate.
  - refine (proj1 (union_needs_small_sum p_04 p_02 (2 # 5) (1 # 5)
      holds_04 holds_02 _ _) _); discriminate.
Defined.

(** X6. [-] negates the right operand, constructs it, and adds: the
    difference is returned when it lies between -1 and 1, and
    [ValueError] is raised when it is outside by at least the gap to the
    next [float]; for two numbers between 0 and 1 it always returns. *)
Theorem difference_checked (p1 p2 : P) (qa qb : Q)
  (H1 : holds p1 qa) (H2 : holds p2 qb) :
  (-1 <= qa - qb -> qa - qb <= 1 ->
     exists r q, __sub__ p1 (Obj p2) true = Return r /\ holds r q
                 /\ q == qa - qb)
  /\ (qa - qb <= -1 - ulp_one \/ 1 + ulp_one <= qa - qb ->
      __sub__ p1 (Obj p2) true = Raise out_of_range)
  /\ (0 <= qa -> 0 <= qb ->
      exists r q, p_sub p1 (Obj p2) true = Return r /\ holds r q
                  /\ q == qa - qb).
Proof.
  split; [| split].
  - exact (sub_returns p1 p2 qa qb H1 H2).
  - intros H. apply (sub_raises p1 p2 qa qb H1 H2).
    unfold ulp_one in H. destruct H as [H | H]; [left | right]; lra.
  - intros Pa Pb. unfold p_sub.
    pose proof H1 as [_ [_ Ua]]. pose proof H2 as [_ [_ Ub]]. apply (sub_returns p1 p2 qa qb H1 H2); lra.
Qed.

Lemma difference_checked_witness :
  exists r q, p_sub p_02 (Obj p_06) true = Return r /\ holds r q
              /\ q == (1 # 5) - (3 # 5).
Proof.
  refine (proj2 (proj2 (difference_checked p_02 p_06 (1 # 5) (3 # 5)
    holds_02 holds_06)) _ _); discriminate.
Defined.

(** X7. Only a [float] operand is wrapped into a [P]: [+], [*] and [|]
    with an [int] operand fail on its missing attribute [v], while [-]
    negates and constructs whatever it is given, so it works with an
    [int]; a [float] operand within range multiplies like a [P]. *)
Theorem operand_kinds (p : P) (qa : Q) (H : holds p qa) :
  (forall k ind, __add__ p (Val (VInt k)) ind = Raise (AttributeError "v"))
  /\ (forall k, __mul__ p (Val (VInt k)) = Raise (AttributeError "v"))
  /\ (forall k, __or__ p (Val (VInt k)) = Raise (AttributeError "v"))
  /\ (forall k, -1 <= inject_Z k -> inject_Z k <= 1 ->
        -1 <= qa - inject_Z k -> qa - inject_Z k <= 1 ->
        exists r q, __sub__ p (Val (VInt k)) true = Return r /\ holds r q
                    /\ q == qa - inject_Z k)
  /\ (forall f, -1 <= f -> f <= 1 ->
        exists r q, __mul__ p (Val (VFloat f)) = Return r /\ holds r q
                    /\ q == qa * f).
Proof.
  split; [| split; [| split; [| split]]].
  - intros k ind. destruct ind; reflexivity.
  - intros k. reflexivity.
  - intros k. reflexivity.
  - intros k Lk Uk L U.
    destruct (negated_returns (VInt k) (inject_Z k) eq_refl Lk Uk)
      as [n [o [qn [Hn [Ho [Hh En]]]]]].
    assert (L' : -1 <= qa + qn) by (rewrite En; lra).
    assert (U' : qa + qn <= 1) by (rewrite En; lra).
    destruct (add_returns p o qa qn H Hh L' U') as [r [q [Hr [Hq Eq]]]].
    exists r, q. unfold __sub__. rewrite Hn. simpl. rewrite Ho. simpl.
    split; [exact Hr | split; [exact Hq |]]. rewrite Eq, En. lra.
  - intros f Lf Uf.
    destruct (init_in_range (VFloat f) f eq_refl Lf Uf) as [Hi Hh].
    destruct (mul_returns p _ qa f H Hh) as [r [q [Hr [Hq Eq]]]].
    exists r, q. unfold __mul__ in *. simpl lift_float. rewrite Hi.
    split; [exact Hr | split; [exact Hq | exact Eq]].
Qed.

Lemma operand_kinds_witness :
  __add__ p_04 (Val (VInt 1)) true = Raise (AttributeError "v")
  /\ exists r q, __sub__ p_04 (Val (VInt 1)) true = Return r /\ holds r q
                 /\ q == (2 # 5) - inject_Z 1.
Proof.
  split.
  - exact (proj1 (operand_kinds p_04 (2 # 5) holds_04) 1%Z true).
  - refine (proj1 (proj2 (proj2 (proj2 (operand_kinds p_04 (2 # 5) holds_04))))
      1%Z _ _ _ _); discriminate.
Defined.

End ClassP.

(** ** More on [P_fn] *)

(** X8. [given] always returns the evaluator of [self] with exactly the
    condition passed in: the [replace] flag changes nothing, a second
    [given] forgets the first, and [given(None)] lifts any restriction. *)
Theorem given_sets_condition (f : P_fn) (c : option callable) (r : bool) :
  given f c r = mkP_fn (value f) c
  /\ given f c r = given f c (negb r)
  /\ (forall c1 r1, given (given f c1 r1) c r = given f c r)
  /\ (forall args, call (given f None r) args = apply_value (value f) args).
Proof.
  assert (E : forall g d s, given g d s = mkP_fn (value g) d).
  { intros g d s. unfold given.
    destruct s, (condition g); reflexivity. }
  split; [apply E | split; [| split]].
  - rewrite !E. reflexivity.
  - intros c1 r1. rewrite !E. reflexivity.
  - intros args. rewrite E. apply call_unconditioned.
Qed.

(** X9. The evaluators built by the combinators take exactly one
    argument: with any other number of arguments [independent] and
    [dependent] raise [TypeError], and so does [conditional] unless the
    condition of [self] is false at the arguments, which gives 0. *)
Theorem combinators_take_one_argument (f g : P_fn) (args : list pyval)
  (Hlen : List.length args <> 1%nat) :
  call (independent f g) args = Raise TypeError
  /\ call (dependent f g) args = Raise TypeError
  /\ (forall b, gate f args = Return b ->
        call (conditional f g) args =
        if b then Raise TypeError else Return (VInt 0)).
Proof.
  assert (Hl : forall body, lambda1 body args = Raise TypeError).
  { intros body. destruct args as [| x [| y rest]]; try reflexivity.
    exfalso. apply Hlen. reflexivity. }
  split; [| split].
  - unfold independent. rewrite call_unconditioned. apply Hl.
  - unfold dependent. rewrite call_unconditioned. apply Hl.
  - intros b Hb. rewrite call_gate, gate_conditional, Hb. simpl.
    destruct b; [apply Hl | reflexivity].
Qed.

Lemma combinators_take_one_argument_witness :
  call (independent p_die p_coin) [VInt 3; VStr "H"] = Raise TypeError
  /\ call (dependent p_die p_coin) [VInt 3; VStr "H"] = Raise TypeError
  /\ call (conditional p_die p_coin) [] = Raise TypeError.
Proof.
  split; [| split].
  - refine (proj1 (combinators_take_one_argument p_die p_coin
      [VInt 3; VStr "H"] _)). discriminate.
  - refine (proj1 (proj2 (combinators_take_one_argument p_die p_coin
      [VInt 3; VStr "H"] _))). discriminate.
  - refine (proj2 (proj2 (combinators_take_one_argument p_die p_coin
      [] _)) true eq_refl). discriminate.
Defined.

(** X10. [dependent] reads only the first two components of a tuple:
    an empty tuple raises [IndexError], a one-element tuple raises it
    after [self] has been evaluated, and components beyond the second
    are ignored. *)
Theorem dependent_tuple_shapes (f g : P_fn) :
  call (dependent f g) [VTuple []] = Raise IndexError
  /\ (forall x a, call f [x] = Return a ->
        call (dependent f g) [VTuple [x]] = Raise IndexError)
  /\ (forall x y rest,
        call (dependent f g) [VTuple (x :: y :: rest)] =
        call (dependent f g) [VTuple [x; y]]).
Proof.
  split; [reflexivity | split].
  - intros x a Hf. unfold dependent. rewrite call_unconditioned. simpl.
    rewrite Hf. reflexivity.
  - intros x y rest. reflexivity.
Qed.

Lemma conditional_zero (f g : P_fn) (x b : pyval) (qb : Q) (gf : bool) :
  gate f [x] = Return gf -> call g [x] = Return b ->
  num_of b = Some qb -> qb == 0 ->
  call (conditional f g) [x] = Return (VInt 0).
Proof.
  intros Hgate Hg Hb Hz.
  rewrite call_gate, gate_conditional, Hgate. simpl.
  destruct gf; [| reflexivity].
  rewrite Hg. simpl. rewrite (py_ne_zero b qb Hb).
  apply Qeq_bool_iff in Hz. rewrite Hz. reflexivity.
Qed.

Lemma conditional_quotient (f g : P_fn) (x a b : pyval) (qa qb : Q) :
  call f [x] = Return a -> call g [x] = Return b ->
  num_of a = Some qa -> num_of b = Some qb -> ~ qb == 0 ->
  exists r q, call (conditional f g) [x] = Return r
              /\ num_of r = Some q /\ q == qa / qb.
Proof.
  intros Hf Hg Ha Hb Hnz.
  assert (Hzb : Qeq_bool qb 0 = false).
  { destruct (Qeq_bool qb 0) eqn:E; [| reflexivity].
    apply Qeq_bool_iff in E. contradiction. }
  pose proof Hf as Hf'. rewrite call_gate in Hf'.
  destruct (bind_inv _ _ _ Hf') as [gf [Hgate Hbody]].
  rewrite call_gate, gate_conditional, Hgate. simpl. destruct gf.
  - rewrite Hg. simpl. rewrite (py_ne_zero b qb Hb), Hzb. simpl.
    rewrite Hf. simpl. rewrite (py_truediv_num a b qa qb Ha Hb Hzb).
    exists (VFloat (Qred (qa / qb))), (Qred (qa / qb)).
    split; [reflexivity |]. split; [reflexivity |]. apply Qred_correct.
  - injection Hbody as <-. simpl in Ha. injection Ha as <-.
    exists (VInt 0), (inject_Z 0).
    split; [reflexivity |]. split; [reflexivity |].
    unfold Qdiv. rewrite Qmult_0_l. apply Qeq_refl.
Qed.

(** X12. A function conditioned on itself is 1 where it is a non-zero
    number and 0 where it is zero. *)
Theorem conditional_on_itself (f : P_fn) (x a : pyval) (qa : Q)
  (Hf : call f [x] = Return a) (Ha : num_of a = Some qa) :
  (qa == 0 -> call (conditional f f) [x] = Return (VInt 0))
  /\ (~ qa == 0 ->
      exists r q, call (conditional f f) [x] = Return r
                  /\ num_of r = Some q /\ q == 1).
Proof.
  split.
  - intros Hz. pose proof Hf as Hf'. rewrite call_gate in Hf'.
    destruct (bind_inv _ _ _ Hf') as [gf [Hgate _]].
    exact (conditional_zero f f x a qa gf Hgate Hf Ha Hz).
  - intros Hnz.
    destruct (conditional_quotient f f x a a qa qa Hf Hf Ha Ha Hnz)
      as [r [q [Hr [Nr Er]]]].
    exists r, q. split; [exact Hr | split; [exact Nr |]].
    rewrite Er. field. exact Hnz.
Qed.

Lemma conditional_on_itself_witness :
  call (conditional p_die p_die) [VInt 7] = Return (VInt 0)
  /\ exists r q, call (conditional p_die p_die) [VInt 3] = Return r
                 /\ num_of r = Some q /\ q == 1.
Proof.
  split.
  - exact (proj1 (conditional_on_itself p_die (VInt 7) (VInt 0) 0
      eq_refl eq_refl) eq_refl).
  - refine (proj2 (conditional_on_itself p_die (VInt 3) (VFloat (1 # 6))
      (1 # 6) eq_refl eq_refl) _).
    intros H. discriminate H.
Defined.

Lemma non_negative_zero : non_negative (VInt 0).
Proof. exists 0. split; [reflexivity | discriminate]. Qed.

Lemma evaluator_calls_non_negative (p : P_fn) :
  evaluator_non_negative (value p) -> calls_non_negative p.
Proof.
  intros He args x Hx. rewrite call_gate in Hx.
  destruct (bind_inv _ _ _ Hx) as [b [_ Hb]]. destruct b.
  - exact (He args x Hb).
  - injection Hb as <-. exact non_negative_zero.
Qed.

Lemma product_non_negative (a b x : pyval) :
  non_negative a -> non_negative b -> py_mul a b = Return x -> non_negative x.
Proof.
  intros [qa [Na La]] [qb [Nb Lb]] Hx.
  destruct (py_mul_num a b qa qb Na Nb) as [r [q [Hr [Nr Er]]]].
  assert (r = x) by congruence. subst r.
  exists q. split; [exact Nr |]. rewrite Er. nra.
Qed.

Lemma built_evaluator_non_negative (p : P_fn) :
  Built p -> evaluator_non_negative (value p).
Proof.
  induction 1 as [p He | p c r Hp IH | p q Hp IHp Hq IHq
                  | p q Hp IHp Hq IHq | p q Hp IHp Hq IHq].
  - exact He.
  - unfold given. destruct (negb r && is_not_None (condition p)); exact IH.
  - apply evaluator_calls_non_negative in IHp, IHq.
    intros args x Hx. simpl in Hx.
    destruct (lambda1_inv _ _ _ Hx) as [y [-> Hy]]. clear Hx.
    destruct (is_tuple y).
    + bind_step Hy a Ha. bind_step Hy b Hb.
      bind_step Ha y0 Hy0. bind_step Hb y1 Hy1.
      exact (product_non_negative a b x (IHp _ _ Ha) (IHq _ _ Hb) Hy).
    + bind_step Hy a Ha. bind_step Hy b Hb.
      exact (product_non_negative a b x (IHp _ _ Ha) (IHq _ _ Hb) Hy).
  - apply evaluator_calls_non_negative in IHp, IHq.
    intros args x Hx. simpl in Hx.
    destruct (lambda1_inv _ _ _ Hx) as [y [-> Hy]]. clear Hx.
    bind_step Hy a Ha. bind_step Hy b Hb.
    destruct (IHp _ _ Ha) as [qa [Na La]].
    destruct (IHq _ _ Hb) as [qb [Nb Lb]].
    destruct (py_add_num a b qa qb Na Nb) as [r [q' [Hr [Nr Er]]]].
    assert (r = x) by congruence. subst r.
    exists q'. split; [exact Nr |]. rewrite Er. lra.
  - apply evaluator_calls_non_negative in IHp, IHq.
    intros args x Hx. simpl in Hx.
    destruct (lambda1_inv _ _ _ Hx) as [y [-> Hy]]. clear Hx.
    bind_step Hy d Hd.
    destruct (IHq _ _ Hd) as [qd [Nd Ld]].
    rewrite (py_ne_zero d qd Nd) in Hy.
    destruct (Qeq_bool qd 0) eqn:Ez; simpl in Hy.
    + injection Hy as <-. exact non_negative_zero.
    + bind_step Hy a Ha. bind_step Hy b Hb.
      assert (b = d) by congruence. subst b.
      destruct (IHp _ _ Ha) as [qa [Na La]].
      rewrite (py_truediv_num a d qa qd Na Nd Ez) in Hy.
      injection Hy as <-.
      assert (Hpos : 0 < qd).
      { apply Qle_lteq in Ld. destruct Ld as [L | E]; [exact L |].
        symmetry in E. apply Qeq_bool_iff in E. congruence. }
      exists (Qred (qa / qd)). split; [reflexivity |].
      rewrite Qred_correct.
      apply Qle_shift_div_l; [exact Hpos | lra].
Qed.

(** X13. No composition of non-negative evaluators is ever negative:
    whatever [given], [dependent], [independent] and [conditional] build
    from them, in any nesting and without any bound on the operands,
    returns only non-negative numbers. *)
Theorem built_non_negative (p : P_fn) (args : list pyval) (x : pyval)
  (Hp : Built p) (Hx : call p args = Return x) :
  non_negative x.
Proof.
  exact (evaluator_calls_non_negative p
           (built_evaluator_non_negative p Hp) args x Hx).
Qed.

Lemma half_on_non_negative (items : list pyval) :
  evaluator_non_negative
    (Fn (lambda1 (fun x =>
       if py_in x items then one_half else Return (VInt 0)))).
Proof.
  intros args x Hx. unfold apply_value in Hx.
  destruct (lambda1_inv _ _ _ Hx) as [y [-> Hy]]. cbv beta in Hy.
  destruct (py_in y items).
  - vm_compute in Hy. injection Hy as <-.
    exists (1 # 2). split; [reflexivity | discriminate].
  - injection Hy as <-. exact non_negative_zero.
Qed.

Lemma built_non_negative_witness :
  Built (conditional (independent p_A p_A) p_B)
  /\ call (conditional (independent p_A p_A) p_B) [VStr "B"]
     = Return (VFloat 2)
  /\ non_negative (VFloat 2).
Proof.
  assert (H2 : Built (conditional (independent p_A p_A) p_B)).
  { apply Built_conditional; [apply Built_independent |];
      apply Built_base; apply half_on_non_negative. }
  split; [exact H2 |]. split; [reflexivity |].
  exact (built_non_negative (conditional (independent p_A p_A) p_B)
           [VStr "B"] (VFloat 2) H2 eq_refl).
Defined.

(** X14. A false condition on [self] silences [conditional] before [other]
    is looked at, even an [other] that would raise, whereas [independent]
    and [dependent] still evaluate [other] and only take 0 for the term
    of [self]. *)
Theorem false_condition_reach (f g : P_fn) (x : pyval)
  (Hgate : gate f [x] = Return false) :
  call (conditional f g) [x] = Return (VInt 0)
  /\ call (independent f g) [x] = (b <- call g [x] ;; py_add (VInt 0) b)
  /\ (is_tuple x = false ->
      call (dependent f g) [x] = (b <- call g [x] ;; py_mul (VInt 0) b)).
Proof.
  assert (Hf : call f [x] = Return (VInt 0)).
  { rewrite call_gate, Hgate. reflexivity. }
  split; [| split].
  - rewrite call_gate, gate_conditional, Hgate. reflexivity.
  - rewrite call_independent, Hf. reflexivity.
  - intros Hx. rewrite (call_dependent_single f g x Hx), Hf. reflexivity.
Qed.

Lemma false_condition_reach_witness :
  gate p_die_even [VInt 3] = Return false
  /\ call (conditional p_die_even (mkP_fn exploding None)) [VInt 3]
     = Return (VInt 0)
  /\ call (independent p_die_even (mkP_fn exploding None)) [VInt 3]
     = Raise (Raised "evaluator ran").
Proof.
  split; [reflexivity |]. split.
  - exact (proj1 (false_condition_reach p_die_even (mkP_fn exploding None)
      (VInt 3) eq_refl)).
  - reflexivity.
Defined.

(** X15. Swapping the operands does not change the number: [independent]
    commutes at every input, and [dependent] commutes when the pair is
    swapped along with the operands. *)
Theorem operands_commute (f g : P_fn) (x y a b : pyval) (qa qb : Q)
  (Hf : call f [x] = Return a) (Hg : call g [y] = Return b)
  (Ha : num_of a = Some qa) (Hb : num_of b = Some qb) :
  (exists r r' q q',
     call (dependent f g) [VTuple [x; y]] = Return r
     /\ call (dependent g f) [VTuple [y; x]] = Return r'
     /\ num_of r = Some q /\ num_of r' = Some q' /\ q == q')
  /\ (x = y ->
      exists r r' q q',
        call (independent f g) [x] = Return r
        /\ call (independent g f) [x] = Return r'
        /\ num_of r = Some q /\ num_of r' = Some q' /\ q == q').
Proof.
  split.
  - destruct (py_mul_num a b qa qb Ha Hb) as [r [q [Hr [Nr Er]]]].
    destruct (py_mul_num b a qb qa Hb Ha) as [r' [q' [Hr' [Nr' Er']]]].
    exists r, r', q, q'. rewrite !call_dependent_pair, Hf, Hg. simpl.
    repeat (split; [assumption |]). rewrite Er, Er'. ring.
  - intros <-.
    destruct (py_add_num a b qa qb Ha Hb) as [r [q [Hr [Nr Er]]]].
    destruct (py_add_num b a qb qa Hb Ha) as [r' [q' [Hr' [Nr' Er']]]].
    exists r, r', q, q'. rewrite !call_independent, Hf, Hg. simpl.
    repeat (split; [assumption |]). rewrite Er, Er'. ring.
Qed.

Lemma operands_commute_witness :
  exists r r' q q',
    call (dependent p_die p_coin) [VTuple [VInt 3; VStr "H"]] = Return r
    /\ call (dependent p_coin p_die) [VTuple [VStr "H"; VInt 3]] = Return r'
    /\ num_of r = Some q /\ num_of r' = Some q' /\ q == q'.
Proof.
  exact (proj1 (operands_commute p_die p_coin (VInt 3) (VStr "H")
    (VFloat (1 # 6)) (VFloat (1 # 2)) (1 # 6) (1 # 2)
    eq_refl eq_refl eq_refl eq_refl)).
Defined.

(** X16. With operands that return numbers between 0 and 1,
    [independent] returns a number between 0 and 2: the sum can leave
    the unit interval but not by more than 1. *)
Theorem independent_at_most_two (f g : P_fn) (args : list pyval) (x : pyval)
  (Hf : calls_in_unit f) (Hg : calls_in_unit g)
  (Hx : call (independent f g) args = Return x) :
  exists q, num_of x = Some q /\ 0 <= q /\ q <= 2.
Proof.
  unfold independent in Hx. rewrite call_unconditioned in Hx. simpl in Hx.
  destruct (lambda1_inv _ _ _ Hx) as [y [-> Hy]]. clear Hx.
  bind_step Hy a Ha. bind_step Hy b Hb.
  destruct (Hf _ _ Ha) as [qa [Na [La Ua]]].
  destruct (Hg _ _ Hb) as [qb [Nb [Lb Ub]]].
  destruct (py_add_num a b qa qb Na Nb) as [r [q [Hr [Nr Er]]]].
  assert (r = x) by congruence. subst r.
  exists q. split; [exact Nr |]. rewrite Er. split; lra.
Qed.

Lemma independent_at_most_two_witness :
  exists q, num_of (VInt 2) = Some q /\ 0 <= q /\ q <= 2.
Proof.
  refine (independent_at_most_two certain certain [VStr "H"] (VInt 2)
    _ _ eq_refl);
    apply evaluator_calls_in_unit, scalar_in_unit;
    exists 1; (split; [reflexivity |]); split; discriminate.
Defined.
